(** * Bookworm: the OCR menu and the Word document converter

    A shallow embedding of [bookworm/ocr/ocr_menu.py] (class [OCRMenu]) and of
    [bookworm/document/formats/word.py] (class [WordDocument]), with the
    properties their specification states about them.

    The menu is event-dispatch code over mutable objects (the service, the
    reader, the view): it is embedded as a state monad over one record holding
    the attributes the handlers read and write, plus the trace of the effects
    a user or another component can observe (signals, sounds, announcements,
    message boxes, dialogs, submitted engine tasks). What the user and the
    engine answer is an argument of every handler.

    The converter works on files: it is embedded as a state and exception
    monad over the disk. The batch extraction is embedded as the list of
    calls it makes on the progress dialog. Definitions come first, by
    component; the properties follow, in one module per component. *)

From Stdlib Require Import ZArith Ascii String List.
From stdpp Require Import gmap strings list pretty.
Import ListNotations.

Local Open Scope Z_scope.
Local Open Scope string_scope.
Local Open Scope list_scope.

(** ** The OCR menu *)

Module OCR.

(** *** Data model *)

(** An OCR language: its tag and whether it is written right to left. *)
Record Language := { lang_tag : string; is_rtl : bool }.

#[export] Instance Language_eq_dec : EqDecision Language.
Proof. solve_decision. Defined.

(** The value the options dialog returns. *)
Record OcrOptions := {
  language : Language;
  zoom_factor : Z;
  image_processing_pipelines : list string;
  store_options : bool
}.

#[export] Instance OcrOptions_eq_dec : EqDecision OcrOptions.
Proof. solve_decision. Defined.

(** Images are opaque to the menu: a page rendered at a zoom factor, or an
    image file at a size. *)
Inductive Image :=
| page_image (page zoom : Z)
| file_image (path : string) (width height : Z).

#[export] Instance Image_eq_dec : EqDecision Image.
Proof. solve_decision. Defined.

(** The request's cookie is the page number, or [None] when the request does
    not belong to a page (Python's default). *)
Abbreviation Cookie := (option Z).

Record OcrRequest := {
  req_language : Language;
  req_image : Image;
  req_image_processing_pipelines : list string;
  req_cookie : Cookie
}.

#[export] Instance OcrRequest_eq_dec : EqDecision OcrRequest.
Proof. solve_decision. Defined.

Record OcrResult := { cookie : Cookie; recognized_text : string }.

(** What the future handed to [_process_ocr_result] holds: [task.result()]
    returns the engine's result or raises what the background call raised,
    which is an instance of [Exception] ([task_raises]) or another
    [BaseException] such as [KeyboardInterrupt] or [SystemExit]
    ([task_raises_base]). *)
Inductive Task :=
| task_returns (r : OcrResult)
| task_raises (exc : string)
| task_raises_base (exc : string).

(** How a handler that can fail ends: it returns, or an exception leaves
    it, named by its class. *)
Inductive Completion :=
| returned
| propagated (exc : string).

#[export] Instance Completion_eq_dec : EqDecision Completion.
Proof. solve_decision. Defined.

Inductive Sound := ocr_start | ocr_end.

(** The effects of the menu that leave it. *)
Inductive Event :=
| ocr_started
| ocr_ended (isfaulted : bool)
| sound_play (s : Sound)
| speech_announce (message : string)
| message_box (title : string)
| options_dialog (languages : list Language) (stored : option OcrOptions)
    (force_save : bool)
| engine_task (request : OcrRequest)  (* the task [_run_ocr] submits *)
| log_exception (message : string)
| set_status (text : string)
| focus_content.

#[export] Instance Sound_eq_dec : EqDecision Sound.
Proof. solve_decision. Defined.

#[export] Instance Event_eq_dec : EqDecision Event.
Proof. solve_decision. Defined.

(** The two closures the menu passes to [_run_ocr], by origin; each captures
    the options of its scan. *)
Inductive Callback :=
| page_callback (ocr_opts : OcrOptions)
| image_callback (options : OcrOptions).

(** The attributes of the service, the reader, the view and the menu that the
    handlers use. [saved_scanned_pages] is a Python dict: any cookie can be a
    key, also [None]. *)
Record State := {
  stored_options : option OcrOptions;
  saved_scanned_pages : gmap Cookie string;
  _ocr_cancelled : bool;
  current_page : Z;
  reader_ready : bool;
  content : string;
  text_direction_rtl : bool;
  auto_scan_checked : bool;
  _wait_dlg : option (OcrRequest * Callback);
  trace : list Event
}.

Definition with_stored_options (o : option OcrOptions) (s : State) : State :=
  {| stored_options := o; saved_scanned_pages := saved_scanned_pages s;
     _ocr_cancelled := _ocr_cancelled s; current_page := current_page s;
     reader_ready := reader_ready s; content := content s;
     text_direction_rtl := text_direction_rtl s;
     auto_scan_checked := auto_scan_checked s; _wait_dlg := _wait_dlg s;
     trace := trace s |}.

Definition with_saved_scanned_pages (m : gmap Cookie string) (s : State) : State :=
  {| stored_options := stored_options s; saved_scanned_pages := m;
     _ocr_cancelled := _ocr_cancelled s; current_page := current_page s;
     reader_ready := reader_ready s; content := content s;
     text_direction_rtl := text_direction_rtl s;
     auto_scan_checked := auto_scan_checked s; _wait_dlg := _wait_dlg s;
     trace := trace s |}.

Definition with_ocr_cancelled (b : bool) (s : State) : State :=
  {| stored_options := stored_options s;
     saved_scanned_pages := saved_scanned_pages s;
     _ocr_cancelled := b; current_page := current_page s;
     reader_ready := reader_ready s; content := content s;
     text_direction_rtl := text_direction_rtl s;
     auto_scan_checked := auto_scan_checked s; _wait_dlg := _wait_dlg s;
     trace := trace s |}.

Definition with_current_page (p : Z) (s : State) : State :=
  {| stored_options := stored_options s;
     saved_scanned_pages := saved_scanned_pages s;
     _ocr_cancelled := _ocr_cancelled s; current_page := p;
     reader_ready := reader_ready s; content := content s;
     text_direction_rtl := text_direction_rtl s;
     auto_scan_checked := auto_scan_checked s; _wait_dlg := _wait_dlg s;
     trace := trace s |}.

Definition with_reader_ready (b : bool) (s : State) : State :=
  {| stored_options := stored_options s;
     saved_scanned_pages := saved_scanned_pages s;
     _ocr_cancelled := _ocr_cancelled s; current_page := current_page s;
     reader_ready := b; content := content s;
     text_direction_rtl := text_direction_rtl s;
     auto_scan_checked := auto_scan_checked s; _wait_dlg := _wait_dlg s;
     trace := trace s |}.

Definition with_content (c : string) (s : State) : State :=
  {| stored_options := stored_options s;
     saved_scanned_pages := saved_scanned_pages s;
     _ocr_cancelled := _ocr_cancelled s; current_page := current_page s;
     reader_ready := reader_ready s; content := c;
     text_direction_rtl := text_direction_rtl s;
     auto_scan_checked := auto_scan_checked s; _wait_dlg := _wait_dlg s;
     trace := trace s |}.

Definition with_text_direction (rtl : bool) (s : State) : State :=
  {| stored_options := stored_options s;
     saved_scanned_pages := saved_scanned_pages s;
     _ocr_cancelled := _ocr_cancelled s; current_page := current_page s;
     reader_ready := reader_ready s; content := content s;
     text_direction_rtl := rtl;
     auto_scan_checked := auto_scan_checked s; _wait_dlg := _wait_dlg s;
     trace := trace s |}.

Definition with_auto_scan_checked (b : bool) (s : State) : State :=
  {| stored_options := stored_options s;
     saved_scanned_pages := saved_scanned_pages s;
     _ocr_cancelled := _ocr_cancelled s; current_page := current_page s;
     reader_ready := reader_ready s; content := content s;
     text_direction_rtl := text_direction_rtl s;
     auto_scan_checked := b; _wait_dlg := _wait_dlg s;
     trace := trace s |}.

Definition with_wait_dlg (d : option (OcrRequest * Callback)) (s : State) : State :=
  {| stored_options := stored_options s;
     saved_scanned_pages := saved_scanned_pages s;
     _ocr_cancelled := _ocr_cancelled s; current_page := current_page s;
     reader_ready := reader_ready s; content := content s;
     text_direction_rtl := text_direction_rtl s;
     auto_scan_checked := auto_scan_checked s; _wait_dlg := d;
     trace := trace s |}.

Definition with_trace (t : list Event) (s : State) : State :=
  {| stored_options := stored_options s;
     saved_scanned_pages := saved_scanned_pages s;
     _ocr_cancelled := _ocr_cancelled s; current_page := current_page s;
     reader_ready := reader_ready s; content := content s;
     text_direction_rtl := text_direction_rtl s;
     auto_scan_checked := auto_scan_checked s; _wait_dlg := _wait_dlg s;
     trace := t |}.

(** *** The monad of the handlers *)

Definition M (A : Type) : Type := State -> A * State.

#[export] Instance M_ret : MRet M := fun A (a : A) s => (a, s).

#[export] Instance M_bind : MBind M :=
  fun A B (k : A -> M B) (m : M A) s => let (a, s') := m s in k a s'.

Definition gets {A} (f : State -> A) : M A := fun s => (f s, s).
Definition modify (f : State -> State) : M unit := fun s => (tt, f s).

(** An effect is appended to the trace, oldest first. *)
Definition emit (e : Event) : M unit :=
  modify (fun s => with_trace (trace s ++ [e]) s).

Definition exec {A} (m : M A) (s : State) : State := snd (m s).
Definition eval {A} (m : M A) (s : State) : A := fst (m s).

(** The events a run adds to the trace it starts from. *)
Definition emitted {A} (m : M A) (s : State) : list Event :=
  drop (length (trace s)) (trace (exec m s)).

(** *** What the handlers ask of the outside

    One options resolution asks the engine for its languages and, when there
    are some, shows the modal options dialog: [ShowModal] is the dialog's
    answer, [None] when the user cancels it. *)
Record Env := {
  get_sorted_languages : list Language;
  ShowModal : option OcrOptions
}.

(** *** Options resolution *)

(** [OCRMenu._get_ocr_options_from_dlg]. Initialising the engine has no
    effect on the attributes modelled here. *)
Definition _get_ocr_options_from_dlg (env : Env)
    (last_stored_options : option OcrOptions) (force_save : bool)
  : M (option OcrOptions) :=
  let langs := get_sorted_languages env in
  match langs with
  | [] =>
      emit (message_box "No Languages for OCR") ;;
      mret None
  | _ :: _ =>
      emit (options_dialog langs last_stored_options force_save) ;;
      modify (with_saved_scanned_pages ∅) ;;
      mret (ShowModal env)
  end.

(** [OCRMenu._get_ocr_options]. *)
Definition _get_ocr_options (env : Env) (from_cache : bool) (force_save : bool)
  : M (option OcrOptions) :=
  last_stored_opts ← gets stored_options;
  (if negb from_cache
   then modify (with_stored_options None) ;;
        modify (with_saved_scanned_pages ∅)
   else mret tt) ;;
  stored ← gets stored_options;
  match stored with
  | Some o => mret (Some o)
  | None =>
      opts ← _get_ocr_options_from_dlg env last_stored_opts force_save;
      (match opts with
       | Some o =>
           if store_options o
           then modify (with_stored_options (Some o))
           else modify (with_stored_options None)
       | None => modify (with_stored_options None)
       end) ;;
      mret opts
  end.

(** *** Single-page scan *)

(** The closure [_ocr_callback] of [onScanCurrentPage]; [page_number ==
    current_page] compares the cookie with an int, so a [None] cookie is
    never equal. *)
Definition _ocr_callback (ocr_opts : OcrOptions) (ocr_result : OcrResult) : M unit :=
  let page_number := cookie ocr_result in
  let content := recognized_text ocr_result in
  modify (fun s =>
    with_saved_scanned_pages (<[page_number := content]> (saved_scanned_pages s)) s) ;;
  current ← gets current_page;
  if decide (page_number = Some current)
  then modify (with_content content) ;;
       modify (with_text_direction (is_rtl (language ocr_opts)))
  else mret tt.

(** [OCRMenu._run_ocr]: the engine call is submitted to the background with
    the wait dialog; nothing is recognised before this handler returns. *)
Definition _run_ocr (ocr_request : OcrRequest) (callback : Callback) : M unit :=
  emit ocr_started ;;
  emit (sound_play ocr_start) ;;
  emit (engine_task ocr_request) ;;
  modify (with_wait_dlg (Some (ocr_request, callback))).

(** [OCRMenu.onScanCurrentPage]. *)
Definition onScanCurrentPage (env : Env) : M unit :=
  modify (with_ocr_cancelled false) ;;
  ocr_opts ← _get_ocr_options env true false;
  match ocr_opts with
  | None => emit (speech_announce "Canceled")
  | Some ocr_opts =>
      page ← gets current_page;
      pages ← gets saved_scanned_pages;
      match pages !! Some page with
      | Some text => modify (with_content text)
      | None =>
          let image := page_image page (zoom_factor ocr_opts) in
          let ocr_request :=
            {| req_language := language ocr_opts;
               req_image := image;
               req_image_processing_pipelines := image_processing_pipelines ocr_opts;
               req_cookie := Some page |} in
          _run_ocr ocr_request (page_callback ocr_opts)
      end
  end.

(** *** Result delivery *)

(** [OCRMenu._process_ocr_result], on the GUI thread. [except Exception]
    catches the instances of [Exception] only: any other exception of
    [task.result()] leaves the handler. *)
Definition _process_ocr_result (callback : OcrResult -> M unit) (task : Task)
  : M Completion :=
  cancelled ← gets _ocr_cancelled;
  if (cancelled : bool)
  then emit (ocr_ended true) ;;
       modify (with_ocr_cancelled false) ;;
       mret returned
  else
    match task with
    | task_raises _ =>
        emit (log_exception "Error getting OCR recognition results.") ;;
        emit (ocr_ended true) ;;
        mret returned
    | task_raises_base exc => mret (propagated exc)
    | task_returns ocr_result =>
        callback ocr_result ;;
        emit (sound_play ocr_end) ;;
        emit (speech_announce "Scan finished.") ;;
        emit focus_content ;;
        emit (ocr_ended false) ;;
        mret returned
    end.

(** [OCRMenu._on_ocr_cancelled], the dismiss callback of the wait dialog. *)
Definition _on_ocr_cancelled : M bool :=
  modify (with_ocr_cancelled true) ;;
  emit (speech_announce "OCR canceled") ;;
  emit (sound_play ocr_end) ;;
  mret true.

(** *** Document events *)

(** [OCRMenu._on_reader_unloaded]. *)
Definition _on_reader_unloaded : M unit :=
  modify (with_stored_options None) ;;
  modify (with_saved_scanned_pages ∅) ;;
  modify (with_auto_scan_checked false).

(** [OCRMenu._on_reader_page_changed]. *)
Definition _on_reader_page_changed (env : Env) : M unit :=
  checked ← gets auto_scan_checked;
  if (checked : bool) then onScanCurrentPage env else mret tt.

(** [OCRMenu.on_should_auto_navigate_to_next_page]. *)
Definition on_should_auto_navigate_to_next_page : M bool :=
  checked ← gets auto_scan_checked;
  mret (negb checked).

(** *** The other menu items *)

(** [OCRMenu.onAutoScanPages]; the two resolutions it can make each get their
    own answers. The text control holds what [set_content] last put there. *)
Definition onAutoScanPages (env env' : Env) : M unit :=
  stored ← gets stored_options;
  (match stored with
   | None => _get_ocr_options env true true ;; mret tt
   | Some _ => mret tt
   end) ;;
  checked ← gets auto_scan_checked;
  (if (checked : bool)
   then emit (speech_announce "Automatic OCR is enabled")
   else emit (speech_announce "Automatic OCR is disabled")) ;;
  text ← gets content;
  if decide (text = "") then onScanCurrentPage env' else mret tt.

(** [OCRMenu.onChangeOCROptions]. *)
Definition onChangeOCROptions (env : Env) : M unit :=
  _get_ocr_options env false false ;; mret tt.

(** [OCRMenu.onScanToTextFile]. [save_as] is the stripped path of the file
    dialog when it is closed with OK. The value is the extraction the handler
    starts on its thread, with its options and output file. That thread
    hands the pages to the engine by itself, with no signal of the menu:
    what it does is not in the trace of the session, which records the
    requests of [_run_ocr] only, and is described by [Batch] below. *)
Definition onScanToTextFile (env : Env) (save_as : option string)
  : M (option (OcrOptions * string)) :=
  ocr_opts ← _get_ocr_options env false true;
  match ocr_opts with
  | None => mret None
  | Some ocr_opts =>
      match save_as with
      | None => mret None
      | Some output_file =>
          if decide (output_file = "") then mret None
          else mret (Some (ocr_opts, output_file))
      end
  end.

(** The view's [unloadCurrentEbook]: the reader unloads its document and
    signals it, which runs the menu's own handler. *)
Definition unloadCurrentEbook : M unit :=
  modify (with_reader_ready false) ;;
  _on_reader_unloaded.

(** The closure [_ocr_callback] of [onScanImageFile]. *)
Definition _image_ocr_callback (options : OcrOptions) (ocr_result : OcrResult) : M unit :=
  let content := recognized_text ocr_result in
  ready ← gets reader_ready;
  (if (ready : bool) then unloadCurrentEbook else mret tt) ;;
  modify (with_content content) ;;
  modify (with_text_direction (is_rtl (language options))) ;;
  emit (set_status "OCR Results").

(** What the user and the file system answer to [onScanImageFile]: the
    stripped path of the file dialog closed with OK, whether it is a file,
    and the size of the image loaded from it, if it loads. *)
Record ImageChoice := {
  chosen_path : option string;
  isfile : bool;
  loaded_size : option (Z * Z)
}.

(** [OCRMenu.onScanImageFile]. The image is resized before the request is
    made, and the resize of [PIL] raises [ValueError] for a width or a
    height below 1: the exception then leaves the handler, after the options
    dialog and before anything is dispatched. *)
Definition onScanImageFile (env : Env) (choice : ImageChoice) : M Completion :=
  match chosen_path choice with
  | None => mret returned
  | Some filename =>
      if decide (filename = "") then mret returned
      else if negb (isfile choice) then mret returned
      else
        match loaded_size choice with
        | None =>
            emit (message_box "Could not load image file") ;;
            mret returned
        | Some (width, height) =>
            options ← _get_ocr_options_from_dlg env None true;
            match options with
            | None => mret returned
            | Some options =>
                let factor := zoom_factor options in
                if (factor * width <? 1)%Z || (factor * height <? 1)%Z
                then mret (propagated "ValueError")
                else
                  let ocr_request :=
                    {| req_language := language options;
                       req_image :=
                         file_image filename (factor * width) (factor * height);
                       req_image_processing_pipelines :=
                         image_processing_pipelines options;
                       req_cookie := None |} in
                  _run_ocr ocr_request (image_callback options) ;;
                  mret returned
            end
        end
  end.

(** The closure a [Callback] stands for. *)
Definition run_callback (cb : Callback) : OcrResult -> M unit :=
  match cb with
  | page_callback ocr_opts => _ocr_callback ocr_opts
  | image_callback options => _image_ocr_callback options
  end.

(** *** Sessions *)

(** The menu when a document has just been loaded: nothing stored, nothing
    scanned, no cancellation pending ([threading.Event()] starts unset). *)
Definition initial (page : Z) (text : string) : State :=
  {| stored_options := None; saved_scanned_pages := ∅;
     _ocr_cancelled := false; current_page := page; reader_ready := true;
     content := text; text_direction_rtl := false;
     auto_scan_checked := false; _wait_dlg := None; trace := [] |}.

(** The reader turns to [page], the view shows the page's own [text], and the
    page-changed signal reaches the menu. *)
Definition navigate (env : Env) (page : Z) (text : string) : M unit :=
  modify (with_current_page page) ;;
  modify (with_content text) ;;
  _on_reader_page_changed env.

(** The reader loads a document and shows [page] of it;
    [OCRMenu._on_reader_loaded] only enables or disables the menu's items. *)
Definition load_document (page : Z) (text : string) : M unit :=
  modify (with_reader_ready true) ;;
  modify (with_current_page page) ;;
  modify (with_content text).

(** Choosing the check item toggles it before its handler runs. *)
Definition click_auto_scan (env env' : Env) : M unit :=
  modify (fun s => with_auto_scan_checked (negb (auto_scan_checked s)) s) ;;
  onAutoScanPages env env'.

(** One event of a session. A completion can arrive for any request made
    earlier, with either closure. *)
Inductive step : State -> State -> Prop :=
| step_scan_current_page env s :
    step s (exec (onScanCurrentPage env) s)
| step_auto_scan_pages env env' s :
    step s (exec (click_auto_scan env env') s)
| step_change_options env s :
    step s (exec (onChangeOCROptions env) s)
| step_scan_to_text_file env save_as s :
    step s (exec (onScanToTextFile env save_as) s)
| step_scan_image_file env choice s :
    step s (exec (onScanImageFile env choice) s)
| step_result cb task s :
    step s (exec (_process_ocr_result (run_callback cb) task) s)
| step_cancelled s :
    step s (exec _on_ocr_cancelled s)
| step_navigate env page text s :
    step s (exec (navigate env page text) s)
| step_unloaded s :
    step s (exec _on_reader_unloaded s)
| step_loaded page text s :
    step s (exec (load_document page text) s).

Inductive reachable : State -> Prop :=
| reachable_initial page text : reachable (initial page text)
| reachable_step s s' : reachable s -> step s s' -> reachable s'.

(** Stored options are options that asked to be stored. *)
Definition stored_options_wf (s : State) : Prop :=
  forall o, stored_options s = Some o -> store_options o = true.

(** A handler keeps an invariant of the state. *)
Definition preserves (P : State -> Prop) {A} (m : M A) : Prop :=
  forall s, P s -> P (exec m s).

(** Counting the ended signals of a trace, by their flag. *)
Definition is_ended (isfaulted : bool) (e : Event) : bool :=
  match e with
  | ocr_ended b => Bool.eqb b isfaulted
  | _ => false
  end.

Definition count_ended (isfaulted : bool) (t : list Event) : nat :=
  length (List.filter (is_ended isfaulted) t).

(** Whether a trace holds an engine call. *)
Definition is_engine_task (e : Event) : bool :=
  match e with
  | engine_task _ => true
  | _ => false
  end.

(** *** A session used in the examples below *)

Module Sample.

Definition english : Language := {| lang_tag := "en"; is_rtl := false |}.
Definition arabic : Language := {| lang_tag := "ar"; is_rtl := true |}.

(** Options for one scan only, and options to keep. *)
Definition once : OcrOptions :=
  {| language := arabic; zoom_factor := 2;
     image_processing_pipelines := []; store_options := false |}.
Definition kept : OcrOptions :=
  {| language := english; zoom_factor := 1;
     image_processing_pipelines := []; store_options := true |}.

Definition answers_once : Env :=
  {| get_sorted_languages := [english; arabic]; ShowModal := Some once |}.
Definition answers_kept : Env :=
  {| get_sorted_languages := [english; arabic]; ShowModal := Some kept |}.
Definition no_languages : Env :=
  {| get_sorted_languages := []; ShowModal := None |}.

Definition page3 : OcrResult := {| cookie := Some 3; recognized_text := "hello" |}.
Definition page4 : OcrResult := {| cookie := Some 4; recognized_text := "world" |}.

(** Page 3 is scanned with options for one scan, and its result arrives. *)
Definition scanned_once : State :=
  exec (_process_ocr_result (run_callback (page_callback once)) (task_returns page3))
    (exec (onScanCurrentPage answers_once) (initial 3 "")).

(** The reader then leaves page 3 and comes back to it. *)
Definition revisited : State :=
  exec (navigate answers_once 3 "")
    (exec (navigate answers_once 4 "") scanned_once).

(** Page 3 is scanned with options to keep, and its result arrives. *)
Definition scanned_kept : State :=
  exec (_process_ocr_result (run_callback (page_callback kept)) (task_returns page3))
    (exec (onScanCurrentPage answers_kept) (initial 3 "")).

(** A scan of page 3 is running and the user dismisses the wait dialog. *)
Definition dismissed : State :=
  exec _on_ocr_cancelled (exec (onScanCurrentPage answers_kept) (initial 3 "")).

End Sample.

End OCR.

(** ** MD5 (RFC 1321)

    The converted file of a Word document is named by the MD5 digest of the
    document. Bytes and 32-bit words are [Z]; additions wrap at [2^32]. *)

Module MD5.

Definition add32 (x y : Z) : Z := (x + y) mod 2 ^ 32.
Definition not32 (x : Z) : Z := Z.lxor x 0xffffffff.

Definition leftrotate (x c : Z) : Z :=
  Z.lor (Z.shiftl x c mod 2 ^ 32) (Z.shiftr x (32 - c)).

(** The per-round shift amounts. *)
Definition s : list Z :=
  [7; 12; 17; 22; 7; 12; 17; 22; 7; 12; 17; 22; 7; 12; 17; 22;
   5; 9; 14; 20; 5; 9; 14; 20; 5; 9; 14; 20; 5; 9; 14; 20;
   4; 11; 16; 23; 4; 11; 16; 23; 4; 11; 16; 23; 4; 11; 16; 23;
   6; 10; 15; 21; 6; 10; 15; 21; 6; 10; 15; 21; 6; 10; 15; 21].

(** [K[i] = floor(2^32 * abs(sin(i + 1)))]. *)
Definition K : list Z :=
  [0xd76aa478; 0xe8c7b756; 0x242070db; 0xc1bdceee;
   0xf57c0faf; 0x4787c62a; 0xa8304613; 0xfd469501;
   0x698098d8; 0x8b44f7af; 0xffff5bb1; 0x895cd7be;
   0x6b901122; 0xfd987193; 0xa679438e; 0x49b40821;
   0xf61e2562; 0xc040b340; 0x265e5a51; 0xe9b6c7aa;
   0xd62f105d; 0x02441453; 0xd8a1e681; 0xe7d3fbc8;
   0x21e1cde6; 0xc33707d6; 0xf4d50d87; 0x455a14ed;
   0xa9e3e905; 0xfcefa3f8; 0x676f02d9; 0x8d2a4c8a;
   0xfffa3942; 0x8771f681; 0x6d9d6122; 0xfde5380c;
   0xa4beea44; 0x4bdecfa9; 0xf6bb4b60; 0xbebfbc70;
   0x289b7ec6; 0xeaa127fa; 0xd4ef3085; 0x04881d05;
   0xd9d4d039; 0xe6db99e5; 0x1fa27cf8; 0xc4ac5665;
   0xf4292244; 0x432aff97; 0xab9423a7; 0xfc93a039;
   0x655b59c3; 0x8f0ccc92; 0xffeff47d; 0x85845dd1;
   0x6fa87e4f; 0xfe2ce6e0; 0xa3014314; 0x4e0811a1;
   0xf7537e82; 0xbd3af235; 0x2ad7d2bb; 0xeb86d391].

(** The [n] low bytes of [x], least significant first. *)
Fixpoint le_bytes (n : nat) (x : Z) : list Z :=
  match n with
  | O => []
  | S n' => x mod 256 :: le_bytes n' (x / 256)
  end.

(** The word whose bytes, least significant first, are [bs]. *)
Fixpoint le_word (bs : list Z) : Z :=
  match bs with
  | [] => 0
  | b :: bs' => b + 256 * le_word bs'
  end.

(** The message, one [0x80] byte, zeros up to 56 modulo 64, and the length
    in bits on 8 bytes. *)
Definition pad (msg : list Z) : list Z :=
  let len := Z.of_nat (length msg) in
  msg ++ [0x80] ++ repeat 0 (Z.to_nat ((55 - len) mod 64))
      ++ le_bytes 8 ((8 * len) mod 2 ^ 64).

Fixpoint chunks (fuel size : nat) (l : list Z) : list (list Z) :=
  match fuel, l with
  | O, _ | _, [] => []
  | S fuel', _ => take size l :: chunks fuel' size (drop size l)
  end.

Definition words (chunk : list Z) : list Z :=
  le_word <$> chunks 16 4 chunk.

Definition round (M : list Z) (st : Z * Z * Z * Z) (i : nat) : Z * Z * Z * Z :=
  let '(A, B, C, D) := st in
  let '(F, g) :=
    if (i <? 16)%nat then
      (Z.lor (Z.land B C) (Z.land (not32 B) D), i)
    else if (i <? 32)%nat then
      (Z.lor (Z.land D B) (Z.land (not32 D) C), ((5 * i + 1) mod 16)%nat)
    else if (i <? 48)%nat then
      (Z.lxor (Z.lxor B C) D, ((3 * i + 5) mod 16)%nat)
    else
      (Z.lxor C (Z.lor B (not32 D)), ((7 * i) mod 16)%nat) in
  let F := add32 (add32 (add32 F A) (nth i K 0)) (nth g M 0) in
  (D, add32 B (leftrotate F (nth i s 0)), B, C).

Definition process_chunk (st : Z * Z * Z * Z) (chunk : list Z) : Z * Z * Z * Z :=
  let '(a0, b0, c0, d0) := st in
  let '(A, B, C, D) := fold_left (round (words chunk)) (seq 0 64) st in
  (add32 a0 A, add32 b0 B, add32 c0 C, add32 d0 D).

Definition digest (msg : list Z) : list Z :=
  let padded := pad msg in
  let '(a0, b0, c0, d0) :=
    fold_left process_chunk (chunks (length padded) 64 padded)
      (0x67452301, 0xefcdab89, 0x98badcfe, 0x10325476) in
  le_bytes 4 a0 ++ le_bytes 4 b0 ++ le_bytes 4 c0 ++ le_bytes 4 d0.

Definition hex_digit (d : Z) : ascii :=
  ascii_of_N (Z.to_N (if (d <? 10)%Z then 48 + d else 87 + d)).

Fixpoint hex (bs : list Z) : string :=
  match bs with
  | [] => ""
  | b :: bs' => String (hex_digit (b / 16)) (String (hex_digit (b mod 16)) (hex bs'))
  end.

(** The bytes of a byte string. *)
Definition bytes (data : string) : list Z :=
  (fun a => Z.of_N (N_of_ascii a)) <$> list_ascii_of_string data.

(** [hashlib.md5(data).hexdigest()]. *)
Definition hexdigest (data : string) : string := hex (digest (bytes data)).

(** The value of a hexadecimal digit, 0 for any other character. *)
Definition hex_value (a : ascii) : Z :=
  let n := Z.of_N (N_of_ascii a) in
  if ((48 <=? n) && (n <=? 57))%Z then n - 48
  else if ((97 <=? n) && (n <=? 102))%Z then n - 87
  else 0.

(** [bytes.fromhex]: the byte string a string of hexadecimal digit pairs
    writes. *)
Fixpoint fromhex (digits : string) : string :=
  match digits with
  | String hi (String lo rest) =>
      String (ascii_of_N (Z.to_N (16 * hex_value hi + hex_value lo))) (fromhex rest)
  | _ => ""
  end.

End MD5.

(** ** The Word document converter *)

Module Word.

(** *** Data model *)

Record DocumentUri := { uri_format : string; uri_path : string }.

#[export] Instance DocumentUri_eq_dec : EqDecision DocumentUri.
Proof. solve_decision. Defined.

(** A [WordDocument] is its URI; the document's bytes are on the disk. *)
Record WordDocument := { uri : DocumentUri }.

Definition get_file_system_path (self : WordDocument) : string :=
  uri_path (uri self).

(** The exceptions of the converter: its own, that of a file that cannot
    be opened, and those the imported libraries raise, by the name of their
    class ([BadZipFile], [PackageNotFoundError], [KeyError], ...). *)
Inductive Exception :=
| FileNotFoundError (filename : string)
| ChangeDocument (old_uri new_uri : DocumentUri) (reason : string)
| LibraryError (name : string).

#[export] Instance Exception_eq_dec : EqDecision Exception.
Proof. solve_decision. Defined.

(** How a call ends. *)
Inductive Outcome (A : Type) :=
| returns (a : A)
| raises (e : Exception).
Arguments returns {A} a.
Arguments raises {A} e.

(** The disk, and the calls made to the external converter so far, by the
    name of the file converted. *)
Record Disk := {
  files : gmap string string;
  converter_calls : list string
}.

Definition W (A : Type) : Type := Disk -> Outcome A * Disk.

#[export] Instance W_ret : MRet W := fun A (a : A) d => (returns a, d).

#[export] Instance W_bind : MBind W :=
  fun A B (k : A -> W B) (m : W A) d =>
    match m d with
    | (returns a, d') => k a d'
    | (raises e, d') => (raises e, d')
    end.

Definition raise {A} (e : Exception) : W A := fun d => (raises e, d).

(** A call that touches no file. *)
Definition lift {A} (o : Outcome A) : W A := fun d => (o, d).

(** [open(filename, "rb").read()]. *)
Definition read_bytes (filename : string) : W string :=
  fun d =>
    match files d !! filename with
    | Some data => (returns data, d)
    | None => (raises (FileNotFoundError filename), d)
    end.

(** [Path.exists]. *)
Definition path_exists (filename : string) : W bool :=
  fun d => (returns (bool_decide (is_Some (files d !! filename))), d).

(** [Path.write_text]: the file is created or replaced. *)
Definition write_text (filename text : string) : W unit :=
  fun d =>
    (returns tt,
     {| files := <[filename := text]> (files d);
        converter_calls := converter_calls d |}).

Definition path_join (directory name : string) : string :=
  directory +:+ "/" +:+ name.

(** *** What the converter imports

    The libraries and helpers [word.py] calls, as functions of their inputs.
    The calls into the libraries return or raise: [mammoth.convert_to_html]
    on the document's bytes (its [value], or the exception of a file it
    cannot open, such as [BadZipFile]); the [selectolax] pass that unwraps
    [TAGS_TO_UNWRAP], strips [TAGS_TO_REMOVE] and gives the body's HTML; the
    title and author of the core properties that [python-docx] reads from
    the document's bytes. The others return: [escape_html];
    [home_data_path]; the format [DocumentUri.from_filename] gives a file
    name; and the built-ins [str.strip], [str.lower] and [Path.stem]. *)
Record Library := {
  convert_to_html : string -> Outcome string;
  body_html : string -> Outcome string;
  core_properties : string -> Outcome (string * option string);
  escape_html : string -> string;
  home_data_path : string -> string;
  format_of_filename : string -> string;
  str_strip : string -> string;
  str_lower : string -> string;
  path_stem : string -> string
}.

Definition NEWLINE : string := String (ascii_of_N 10) "".
Definition dquote : string := String (ascii_of_N 34) "".

Definition from_filename (lib : Library) (filename : string) : DocumentUri :=
  {| uri_format := format_of_filename lib filename; uri_path := filename |}.

(** Modelled from the spec: [generate_file_md5] of [bookworm.utils], which
    is imported but not part of the sources at hand. The converted file is
    keyed by the content hash of the input; by its name the hash is the MD5
    digest of the file's bytes, in hexadecimal. *)
Definition generate_file_md5 (filename : string) : W string :=
  data ← read_bytes filename;
  mret (MD5.hexdigest data).

(** *** The converter *)

(** The document [make_proper_html] joins, from the body's HTML, the path
    of the Word file and the title and author of its core properties. *)
Definition html_page (lib : Library) (html_string docx_file_path title : string)
    (author : option string) : string :=
  let doc_title := str_strip lib title in
  let doc_title :=
    if bool_decide (doc_title = "")
       || bool_decide (str_lower lib doc_title = "word document")
    then str_strip lib (path_stem lib docx_file_path)
    else doc_title in
  let doc_author := escape_html lib (default "" author) in
  String.concat NEWLINE
    [ "<!DOCTYPE html>";
      "<html>";
      "<head>";
      "<meta charset=" +:+ dquote +:+ "utf-8" +:+ dquote +:+ "/>";
      "<meta name=" +:+ dquote +:+ "author" +:+ dquote +:+ " content="
        +:+ dquote +:+ doc_author +:+ dquote +:+ "/>";
      "<title>" +:+ escape_html lib doc_title +:+ "</title>";
      "</head>";
      html_string;
      "</html>" ].

(** [DocxDocumentReader(docx_file_path).core_properties]: [python-docx]
    opens the file itself, and raises its own [PackageNotFoundError] when
    there is none. *)
Definition docx_core_properties (lib : Library) (docx_file_path : string)
  : W (string * option string) :=
  fun d =>
    match files d !! docx_file_path with
    | Some docx => (core_properties lib docx, d)
    | None => (raises (LibraryError "PackageNotFoundError"), d)
    end.

(** [WordDocument.make_proper_html]: the HTML is parsed and cleaned first,
    then the Word file is opened for its properties. *)
Definition make_proper_html (lib : Library) (html_string docx_file_path : string)
  : W string :=
  html_string ← lift (body_html lib html_string);
  props ← docx_core_properties lib docx_file_path;
  mret (html_page lib html_string docx_file_path (fst props) (snd props)).

(** The call of the external converter on an open document. *)
Definition mammoth_convert (lib : Library) (filename docx : string) : W string :=
  fun d =>
    (convert_to_html lib docx,
     {| files := files d;
        converter_calls := converter_calls d ++ [filename] |}).

(** The name of the converted file of a document with these bytes. *)
Definition target_of (lib : Library) (data : string) : string :=
  path_join (home_data_path lib "docx_as_html") (MD5.hexdigest data +:+ ".html").

(** What [make_proper_html] gives for a Word file with these bytes. *)
Definition proper_html (lib : Library) (html_string docx_file_path docx : string)
  : Outcome string :=
  match body_html lib html_string with
  | raises e => raises e
  | returns body =>
      match core_properties lib docx with
      | raises e => raises e
      | returns props =>
          returns (html_page lib body docx_file_path (fst props) (snd props))
      end
  end.

(** The text of the converted file of the document at [filename], or the
    exception that the conversion of its bytes ends with. *)
Definition converted (lib : Library) (filename data : string) : Outcome string :=
  match convert_to_html lib data with
  | raises e => raises e
  | returns result => proper_html lib result filename data
  end.

(** The disk after the converter was called on [filename]. *)
Definition called (filename : string) (d : Disk) : Disk :=
  {| files := files d; converter_calls := converter_calls d ++ [filename] |}.

(** The disk after [filename] was converted to [html] in [target_file]. *)
Definition written (filename target_file html : string) (d : Disk) : Disk :=
  {| files := <[target_file := html]> (files d);
     converter_calls := converter_calls d ++ [filename] |}.

(** [WordDocument.get_converted_filename]. Making the storage directory
    changes no file. *)
Definition get_converted_filename (lib : Library) (filename : string) : W string :=
  let storage_area := home_data_path lib "docx_as_html" in
  digest ← generate_file_md5 filename;
  let target_file := path_join storage_area (digest +:+ ".html") in
  present ← path_exists target_file;
  (if negb present
   then docx ← read_bytes filename;
        result ← mammoth_convert lib filename docx;
        html_string ← make_proper_html lib result filename;
        write_text target_file html_string
   else mret tt) ;;
  mret target_file.

(** [WordDocument.read]: the conversion runs in the worker process, on the
    same disk, and [result()] hands back its value or its exception. The
    type of the value is that of page content. *)
Definition read (lib : Library) (self : WordDocument) : W string :=
  let docx_file_path := get_file_system_path self in
  converted_file ← get_converted_filename lib docx_file_path;
  raise (ChangeDocument (uri self) (from_filename lib converted_file)
           "Docx converted to html").

(** *** A disk used in the examples below *)

Module Sample.

(** A Word document of one paragraph, [Hello]: a ZIP archive of
    [[Content_Types].xml], [_rels/.rels] and [word/document.xml]. *)
Definition hello_docx : string :=
  MD5.fromhex
    ("504b030414000000080000002100c94f1ab0eb000000ae010000130000005b43"
     +:+ "6f6e74656e745f54797065735d2e786d6c7d50bd4ec33010de790acb2b8a1d18"
     +:+ "1042493af03302437980937d492cecb3e5734bfbf6386de9800ae3ddf7abaf5b"
     +:+ "ed82175bccec22f5f246b5522099681d4dbdfc58bf34f7527001b2e023612ff7"
     +:+ "c872355c75eb7d4216554cdccbb994f4a0359b1903b08a09a92263cc014a3df3"
     +:+ "a413984f9850dfb6ed9d36910a5269cae22187ee0947d8f8229e77f57d2c92d1"
     +:+ "b3148f47e292d54b48c93b03a5e27a4bf6574a734a505579e0f0ec125f5782d4"
     +:+ "171316e4ef8093eead2e939d45f10eb9bc42a82cfd15b3d5369a4da84af5bfcd"
     +:+ "859e711c9dc1b37e714b391a64ae9307afce4800473ffdf561eee11b504b0304"
     +:+ "14000000080000002100b9814471b00000002a0100000b0000005f72656c732f"
     +:+ "2e72656c738dcf3b0ec2300c06e09d5344de695a068450932e08a92b2a078812"
     +:+ "378d681e4ac2a3b7270303200646dbbf3fcb6df7b033b9614cc63b064d550341"
     +:+ "27bd324e33380fc7f50e48cac229317b870c164cd0f1557bc259e4b293261312"
     +:+ "29884b0ca69cc39ed22427b422553ea02b93d1472b7229a3a641c88bd0483775"
     +:+ "bda5f1dd00fe61925e3188bd6a800c4bc07f6c3f8e46e2c1cbab45977f9cf84a"
     +:+ "1459448d99c1dd4745d5ab5d1516286fe9c78bfc09504b030414000000080000"
     +:+ "0021007dc6cc939d000000cf00000011000000776f72642f646f63756d656e74"
     +:+ "2e786d6c458e410ec2201045f79e82b0b75417c63485ee8c07d003208c6d1398"
     +:+ "2180d6de5ea80b376ffecf4cfefc7ef878c7de10d34c28f9a16939033464671c"
     +:+ "25bfdf2efb3367296bb4da1182e42b243ea85dbf7496cccb0366561230758be4"
     +:+ "53cea113229909bc4e0d05c0b27b52f43a171b47b150b421928194ca03efc4b1"
     +:+ "6d4fc2eb19b92a910fb26b9da12256647505e7a8175556c68d61e3ef5cfcaba8"
     +:+ "2f504b0102140314000000080000002100c94f1ab0eb000000ae010000130000"
     +:+ "000000000000000000a401000000005b436f6e74656e745f54797065735d2e78"
     +:+ "6d6c504b0102140314000000080000002100b9814471b00000002a0100000b00"
     +:+ "00000000000000000000a4011c0100005f72656c732f2e72656c73504b010214"
     +:+ "03140000000800000021007dc6cc939d000000cf000000110000000000000000"
     +:+ "000000a401f5010000776f72642f646f63756d656e742e786d6c504b05060000"
     +:+ "000003000300b9000000c10200000000").

(** The record that ends a ZIP archive starts 22 bytes from the end of an
    archive without a comment. *)
Definition end_record : string :=
  "PK" +:+ String (ascii_of_N 5) (String (ascii_of_N 6) "").

Definition is_zipfile (data : string) : bool :=
  (22 <=? String.length data)%nat
  && bool_decide (String.substring (String.length data - 22)%nat 4 data = end_record).

Fixpoint lower (text : string) : string :=
  match text with
  | EmptyString => EmptyString
  | String a rest =>
      let n := N_of_ascii a in
      String (if ((65 <=? n) && (n <=? 90))%N then ascii_of_N (n + 32)%N else a)
        (lower rest)
  end.

Fixpoint has (c : ascii) (text : string) : bool :=
  match text with
  | EmptyString => false
  | String a rest => bool_decide (a = c) || has c rest
  end.

Fixpoint after_last (c : ascii) (text : string) : string :=
  match text with
  | EmptyString => EmptyString
  | String a rest =>
      if has c rest then after_last c rest
      else if decide (a = c) then rest else text
  end.

Fixpoint before_last (c : ascii) (text : string) : string :=
  match text with
  | EmptyString => EmptyString
  | String a rest =>
      if has c rest then String a (before_last c rest)
      else if decide (a = c) then EmptyString else text
  end.

(** Stand-ins for the libraries, enough for the files below: a file that
    is a ZIP archive converts to the paragraph of [hello_docx] and has the
    properties [python-docx] gives a document without any; any other file
    is refused as the libraries refuse it. *)
Definition lib : Library :=
  {| convert_to_html := fun docx =>
       if is_zipfile docx then returns "<p>Hello</p>"
       else raises (LibraryError "BadZipFile");
     body_html := fun html => returns html;
     core_properties := fun docx =>
       if is_zipfile docx then returns ("Word Document", Some "python-docx")
       else raises (LibraryError "PackageNotFoundError");
     escape_html := fun text => text;
     home_data_path := fun name => "/data/" +:+ name;
     format_of_filename := fun _ => "html";
     str_strip := fun text => text;
     str_lower := lower;
     path_stem := fun path => before_last "." (after_last "/" path) |}.


(** A disk with the Word document, a copy of it, and a text file that has
    the extension of a Word document. *)
Definition disk : Disk :=
  {| files := {[ "/docs/report.docx" := hello_docx;
                 "/docs/copy.docx" := hello_docx;
                 "/docs/plain.docx" := "plain text" ]};
     converter_calls := [] |}.



(** Two blocks of 128 bytes that differ in six bytes and have the same MD5
    digest (Wang and Yu, 2005). *)
Definition block_a : string :=
  MD5.fromhex
    ("d131dd02c5e6eec4693d9a0698aff95c2fcab58712467eab4004583eb8fb7f89"
     +:+ "55ad340609f4b30283e488832571415a085125e8f7cdc99fd91dbdf280373c5b"
     +:+ "d8823e3156348f5bae6dacd436c919c6dd53e2b487da03fd02396306d248cda0"
     +:+ "e99f33420f577ee8ce54b67080a80d1ec69821bcb6a8839396f9652b6ff72a70").

Definition block_b : string :=
  MD5.fromhex
    ("d131dd02c5e6eec4693d9a0698aff95c2fcab50712467eab4004583eb8fb7f89"
     +:+ "55ad340609f4b30283e4888325f1415a085125e8f7cdc99fd91dbd7280373c5b"
     +:+ "d8823e3156348f5bae6dacd436c919c6dd53e23487da03fd02396306d248cda0"
     +:+ "e99f33420f577ee8ce54b67080280d1ec69821bcb6a8839396f965ab6ff72a70").

(** The Word document after each block: two archives with leading bytes,
    which a ZIP reader skips, that hold the same document, differ in six
    bytes and have the same MD5 digest. *)
Definition collision_a : string := block_a +:+ hello_docx.
Definition collision_b : string := block_b +:+ hello_docx.

Definition colliding_disk : Disk :=
  {| files := {[ "/docs/a.docx" := collision_a; "/docs/b.docx" := collision_b ]};
     converter_calls := [] |}.

End Sample.

End Word.

(** ** Batch text extraction *)

Module Batch.

Import OCR.

(** The engine's recognition, as a function of the request. *)
Record Engine := { preprocess_and_recognize : OcrRequest -> OcrResult }.

(** What one run of the extraction process gives its caller: the progress
    values it yields, in order, the text it leaves in the output file, and
    whether it ran to its end. *)
Record Run := {
  yielded : list nat;
  output : string;
  completed : bool
}.

(** The text the engine recognises on page [idx] of the document. *)
Definition recognize_page (engine : Engine) (ocr_opts : OcrOptions) (idx : nat) : string :=
  recognized_text
    (preprocess_and_recognize engine
       {| req_language := language ocr_opts;
          req_image := page_image (Z.of_nat idx) (zoom_factor ocr_opts);
          req_image_processing_pipelines := image_processing_pipelines ocr_opts;
          req_cookie := Some (Z.of_nat idx) |}).

(** Modelled from the spec: the pages loop of the engine's [scan_to_text],
    which is not part of the sources at hand. It runs OCR on each page in
    turn, adds the page's text to the output and emits progress after the
    page; the abort hook is checked between page iterations and stops
    further page processing. [should_stop idx] is what the hook answers
    before page [idx]. *)
Fixpoint scan_pages (engine : Engine) (ocr_opts : OcrOptions)
    (should_stop : nat -> bool) (idx remaining : nat) : Run :=
  match remaining with
  | O => {| yielded := []; output := ""; completed := true |}
  | S remaining' =>
      if should_stop idx
      then {| yielded := []; output := ""; completed := false |}
      else
        let rest := scan_pages engine ocr_opts should_stop (S idx) remaining' in
        {| yielded := idx :: yielded rest;
           output := recognize_page engine ocr_opts idx +:+ output rest;
           completed := completed rest |}
  end.

(** Modelled from the spec: [QueueProcess] running the engine's
    [scan_to_text] over a document of [total] pages, neither of which is
    part of the sources at hand. Iterating the process gives the progress
    values; its [cancel] is the abort hook. *)
Definition scan_to_text (engine : Engine) (total : nat) (ocr_opts : OcrOptions)
    (should_stop : nat -> bool) : Run :=
  scan_pages engine ocr_opts should_stop 0 total.

(** The texts of the pages, one after the other. *)
Definition concatenation (texts : list string) : string :=
  foldr String.append "" texts.

(** What the extraction does to the user interface. *)
Inductive UiEvent :=
| progress_update (value : nat) (message : string)
| progress_dismiss
| content_set_focus.

#[export] Instance UiEvent_eq_dec : EqDecision UiEvent.
Proof. solve_decision. Defined.

(** What [_continue_with_text_extraction] leaves behind: its calls on the
    user interface, in order; the message box of the done callback, when the
    callback runs; and the text of the output file. *)
Record Extraction := {
  ui : list UiEvent;
  done_message : option (string * string);
  written : string
}.

Definition scanning_message (progress total : nat) : string :=
  "Scanning page " +:+ pretty progress +:+ " of " +:+ pretty total.

Definition completed_message (total : nat) (file : string) : string :=
  "Successfully processed " +:+ pretty total +:+ " pages."
    +:+ String (ascii_of_N 10) "Extracted text was written to: " +:+ file.

(** [OCRMenu._continue_with_text_extraction], on its own thread, for a
    document of [total] pages. The done callback is taken to run on normal
    completion, as the spec has it. *)
Definition _continue_with_text_extraction (engine : Engine) (total : nat)
    (ocr_opts : OcrOptions) (output_file : string) (should_stop : nat -> bool)
  : Extraction :=
  let scan2text_process := scan_to_text engine total ocr_opts should_stop in
  {| ui :=
       ((fun progress =>
           progress_update (progress + 1) (scanning_message progress total))
          <$> yielded scan2text_process)
       ++ [progress_dismiss; content_set_focus];
     done_message :=
       if completed scan2text_process
       then Some (completed_message total output_file, "OCR Completed")
       else None;
     written := output scan2text_process |}.

(** The [Update] calls among the calls on the user interface. *)
Definition progress_updates (l : list UiEvent) : list (nat * string) :=
  omap (fun e =>
          match e with
          | progress_update value message => Some (value, message)
          | _ => None
          end) l.

(** *** An engine used in the examples below *)

Module Sample.

Definition engine : Engine :=
  {| preprocess_and_recognize := fun request =>
       {| cookie := req_cookie request;
          recognized_text :=
            match req_cookie request with
            | Some page => "[page " +:+ pretty page +:+ "]"
            | None => ""
            end |} |}.

(** The abort hook answers yes from page 2 on. *)
Definition stop_at_2 (idx : nat) : bool := bool_decide (2 ≤ idx)%nat.

Definition never_stop (idx : nat) : bool := false.

End Sample.

End Batch.

(** ** The items of the menu *)

Module Menu.

(** [OCRMenuIds]: iterating the enumeration gives its members in the order
    of their definition. *)
Inductive OCRMenuIds :=
| scanCurrentPage
| autoScanPages
| scanToTextFile
| changeOCROptions.

Definition value (id : OCRMenuIds) : Z :=
  match id with
  | scanCurrentPage => 10001
  | autoScanPages => 10002
  | scanToTextFile => 10003
  | changeOCROptions => 10004
  end.

Definition members : list OCRMenuIds :=
  [scanCurrentPage; autoScanPages; scanToTextFile; changeOCROptions].

Record Item := {
  item_id : Z;
  label : string;
  help : string;
  check_item : bool;
  enabled : bool
}.

Definition tab : string := String (ascii_of_N 9) "".

(** [wx.Menu.Append]: the new item comes last and is enabled. *)
Definition Append (id : Z) (label help : string) (check : bool) (items : list Item)
  : list Item :=
  items ++ [{| item_id := id; label := label; help := help;
               check_item := check; enabled := true |}].

(** The items [OCRMenu.__init__] appends, in order; [tr] is the translation
    of a message and [image2textId] the identifier [wx.NewIdRef] gives. *)
Definition init_items (tr : string -> string) (image2textId : Z) : list Item :=
  Append image2textId (tr "Image To Text...") (tr "Run OCR on an image.") false
    (Append (value scanToTextFile) (tr "Scan To &Text File...")
       (tr "Scan pages and save the text to a .txt file.") false
       (Append (value changeOCROptions) (tr "&Change OCR Options...")
          (tr "Change OCR options") false
          (Append (value autoScanPages) (tr ("&Automatic OCR" +:+ tab +:+ "Ctrl-F4"))
             (tr "Auto run  OCR when turning pages.") true
             (Append (value scanCurrentPage)
                (tr ("&Scan Current Page..." +:+ tab +:+ "F4"))
                (tr "Run OCR on the current page") false [])))).

(** [wx.Menu.Enable]: the item with this identifier, if there is one. *)
Definition Enable (id : Z) (enable : bool) (items : list Item) : list Item :=
  (fun item =>
     if decide (item_id item = id)
     then {| item_id := item_id item; label := label item; help := help item;
             check_item := check_item item; enabled := enable |}
     else item) <$> items.

(** [OCRMenu._on_reader_loaded], with what the document's
    [can_render_pages] answers. *)
Definition _on_reader_loaded (can_render : bool) (items : list Item) : list Item :=
  foldl (fun items item_id => Enable (value item_id) can_render items) items members.

(** Whether the item with this identifier is enabled, if there is one. *)
Definition is_enabled (id : Z) (items : list Item) : option bool :=
  enabled <$> List.find (fun item => bool_decide (item_id item = id)) items.

End Menu.

(** ** The wildcard of the image file dialog *)

Module FileDialog.

(** [str.rstrip] with one character to strip. *)
Fixpoint rstrip (c : ascii) (s : string) : string :=
  match s with
  | EmptyString => EmptyString
  | String a s' =>
      match rstrip c s' with
      | EmptyString => if decide (a = c) then EmptyString else String a EmptyString
      | rest => String a rest
      end
  end.

(** ["{name} ({ext})|{ext}|".format(name=name, ext=ext)]. *)
Definition entry (ext name : string) : string :=
  name +:+ " (" +:+ ext +:+ ")|" +:+ ext +:+ "|".

(** [wildcard[-1] = wildcard[-1].rstrip("|")]; [None] is the [IndexError]
    of an empty list. *)
Fixpoint strip_last (wildcard : list string) : option (list string) :=
  match wildcard with
  | [] => None
  | [last] => Some [rstrip "|" last]
  | first :: rest => (fun rest' => first :: rest') <$> strip_last rest
  end.

(** The wildcard [onScanImageFile] builds from its list of extensions and
    names, under the heading of all formats. *)
Definition wildcard_of (heading : string) (all_exts : list (string * string))
  : option string :=
  let wildcard := (fun ext_name => entry (fst ext_name) (snd ext_name)) <$> all_exts in
  wildcard ← strip_last wildcard;
  let allfiles := String.concat ";" (fst <$> all_exts) in
  Some (String.concat "" ((heading +:+ "|" +:+ allfiles +:+ "|") :: wildcard)).

Definition all_exts (tr : string -> string) : list (string * string) :=
  [ ("*.png", tr "Portable Network Graphics");
    ("*.jpg", tr "JPEG images");
    ("*.bmp", tr "Bitmap images");
    ("*.tif", tr "Tiff graphics") ].

Definition image_wildcard (tr : string -> string) : option string :=
  wildcard_of (tr "All supported image formats") (all_exts tr).

(** The fields a wildcard is to hold: a description and a pattern for each
    extension. *)
Definition fields (all_exts : list (string * string)) : list string :=
  all_exts ≫= fun ext_name =>
    [snd ext_name +:+ " (" +:+ fst ext_name +:+ ")"; fst ext_name].

End FileDialog.

(** ** Counting signals *)

Module Signals.

Import OCR.

Definition is_options_dialog (e : Event) : bool :=
  match e with
  | options_dialog _ _ _ => true
  | _ => false
  end.

(** The request a scan of the current page makes with these options. *)
Definition request_of (o : OcrOptions) (s : State) : OcrRequest :=
  {| req_language := language o;
     req_image := page_image (current_page s) (zoom_factor o);
     req_image_processing_pipelines := image_processing_pipelines o;
     req_cookie := Some (current_page s) |}.

(** What the delivery of a result emits after its callback. *)
Definition finished : list Event :=
  [sound_play ocr_end; speech_announce "Scan finished."; focus_content;
   ocr_ended false].

Definition count (p : Event -> bool) (t : list Event) : nat :=
  length (List.filter p t).

End Signals.

(** ** Properties of the OCR menu *)

Module OCRSpec.

Import OCR.

(** Running a handler is unfolding the monad and the handlers it calls. *)
Ltac run :=
  cbv [exec eval emitted mbind M_bind mret M_ret gets modify emit
       onScanCurrentPage _get_ocr_options _get_ocr_options_from_dlg _run_ocr
       _ocr_callback _image_ocr_callback run_callback unloadCurrentEbook
       _process_ocr_result _on_ocr_cancelled _on_reader_unloaded
       _on_reader_page_changed onAutoScanPages onChangeOCROptions
       onScanToTextFile onScanImageFile navigate click_auto_scan
       load_document negb] in *.

Lemma emitted_app {A} (m : M A) (s : State) (l : list Event) :
  trace (exec m s) = trace s ++ l -> emitted m s = l.
Proof. intros H. unfold emitted. rewrite H. apply drop_app_length. Qed.

(** *** Stored options are options that asked to be stored *)

Section Preservation.

Variable P : State -> Prop.

Lemma preserves_ret {A} (a : A) : preserves P (mret a).
Proof. intros s Hs. exact Hs. Qed.

Lemma preserves_gets {A} (f : State -> A) : preserves P (gets f).
Proof. intros s Hs. exact Hs. Qed.

Lemma preserves_bind {A B} (m : M A) (k : A -> M B) :
  preserves P m -> (forall a, preserves P (k a)) -> preserves P (m ≫= k).
Proof.
  intros Hm Hk s Hs. specialize (Hm s Hs).
  unfold exec, mbind, M_bind in *. destruct (m s) as [a s']. apply Hk, Hm.
Qed.

Lemma preserves_modify (f : State -> State) :
  (forall s, P s -> P (f s)) -> preserves P (modify f).
Proof. intros Hf s Hs. apply Hf, Hs. Qed.

End Preservation.

Lemma wf_emit e : preserves stored_options_wf (emit e).
Proof. apply preserves_modify. intros s Hs. exact Hs. Qed.

Lemma wf_modify (f : State -> State) :
  (forall s, stored_options (f s) = stored_options s) ->
  preserves stored_options_wf (modify f).
Proof.
  intros Hf. apply preserves_modify. intros s Hs o. rewrite Hf. apply Hs.
Qed.

Lemma wf_clear : preserves stored_options_wf (modify (with_stored_options None)).
Proof. apply preserves_modify. intros s _ o. discriminate. Qed.

Lemma wf_store o :
  store_options o = true ->
  preserves stored_options_wf (modify (with_stored_options (Some o))).
Proof. intros Ho. apply preserves_modify. intros s _ o' [= <-]. exact Ho. Qed.

Ltac wf_leaf :=
  first
    [ apply preserves_ret
    | apply preserves_gets
    | apply wf_emit
    | apply wf_clear
    | apply wf_modify; intros ?; reflexivity ].

(** [wf_bind x] splits a bind whose first action is a leaf and names its
    value; [wf_seq] chains leaves. *)
Tactic Notation "wf_bind" ident(x) :=
  apply preserves_bind; [try wf_leaf | intros x].

Ltac wf_seq :=
  repeat first [ wf_leaf | apply preserves_bind; [| intros _] ].

Lemma wf_get_ocr_options_from_dlg env last force_save :
  preserves stored_options_wf (_get_ocr_options_from_dlg env last force_save).
Proof.
  unfold _get_ocr_options_from_dlg.
  destruct (get_sorted_languages env); wf_seq.
Qed.

Lemma wf_get_ocr_options env from_cache force_save :
  preserves stored_options_wf (_get_ocr_options env from_cache force_save).
Proof.
  unfold _get_ocr_options. wf_bind last. wf_bind u.
  { destruct from_cache; simpl; wf_seq. }
  wf_bind stored. destruct stored as [o|]; [wf_leaf|].
  wf_bind opts; [apply wf_get_ocr_options_from_dlg|].
  wf_bind u'; [|wf_leaf].
  destruct opts as [o|]; [|wf_leaf].
  destruct (store_options o) eqn:Ho; [apply wf_store, Ho | wf_leaf].
Qed.

Lemma wf_run_ocr request cb : preserves stored_options_wf (_run_ocr request cb).
Proof. unfold _run_ocr. wf_seq. Qed.

Lemma wf_onScanCurrentPage env :
  preserves stored_options_wf (onScanCurrentPage env).
Proof.
  unfold onScanCurrentPage. wf_bind u.
  wf_bind opts; [apply wf_get_ocr_options|].
  destruct opts as [o|]; [|wf_leaf].
  wf_bind page. wf_bind pages.
  destruct (pages !! Some page); [wf_leaf | apply wf_run_ocr].
Qed.

Lemma wf_on_reader_unloaded : preserves stored_options_wf _on_reader_unloaded.
Proof. unfold _on_reader_unloaded. wf_seq. Qed.

Lemma wf_run_callback cb r : preserves stored_options_wf (run_callback cb r).
Proof.
  destruct cb; simpl.
  - unfold _ocr_callback. wf_bind u. wf_bind current.
    case_decide; wf_seq.
  - unfold _image_ocr_callback, unloadCurrentEbook.
    wf_bind ready. wf_bind u; [|wf_seq].
    destruct ready; [|wf_leaf].
    wf_bind u'. apply wf_on_reader_unloaded.
Qed.

Lemma wf_process_ocr_result cb task :
  preserves stored_options_wf (_process_ocr_result (run_callback cb) task).
Proof.
  unfold _process_ocr_result. wf_bind cancelled.
  destruct cancelled; [wf_seq|].
  destruct task; [| wf_seq | wf_seq].
  wf_bind u; [apply wf_run_callback | wf_seq].
Qed.

Lemma wf_step_relation s s' :
  step s s' -> stored_options_wf s -> stored_options_wf s'.
Proof.
  intros Hstep. destruct Hstep.
  - apply wf_onScanCurrentPage.
  - unfold click_auto_scan, onAutoScanPages. wf_bind u.
    wf_bind stored. wf_bind u'.
    { destruct stored; [wf_leaf|].
      wf_bind opts; [apply wf_get_ocr_options | wf_leaf]. }
    wf_bind checked. wf_bind u''; [destruct checked; wf_leaf|].
    wf_bind text. case_decide; [apply wf_onScanCurrentPage | wf_leaf].
  - unfold onChangeOCROptions.
    wf_bind opts; [apply wf_get_ocr_options | wf_leaf].
  - unfold onScanToTextFile. wf_bind opts; [apply wf_get_ocr_options|].
    destruct opts as [o|]; [|wf_leaf]. destruct save_as; [|wf_leaf].
    case_decide; wf_leaf.
  - unfold onScanImageFile. destruct (chosen_path choice); [|wf_leaf].
    case_decide; [wf_leaf|]. destruct (isfile choice); simpl; [|wf_leaf].
    destruct (loaded_size choice) as [[w h]|]; [|wf_seq].
    wf_bind opts; [apply wf_get_ocr_options_from_dlg|].
    destruct opts as [o|]; [| wf_leaf].
    destruct (_ || _); [wf_leaf |].
    apply preserves_bind; [apply wf_run_ocr | intros _; wf_leaf].
  - apply wf_process_ocr_result.
  - unfold _on_ocr_cancelled. wf_seq.
  - unfold navigate, _on_reader_page_changed. wf_bind u. wf_bind u'.
    wf_bind checked.
    destruct checked; [apply wf_onScanCurrentPage | wf_leaf].
  - apply wf_on_reader_unloaded.
  - unfold load_document. wf_seq.
Qed.

(** Every state of a session keeps the invariant. *)
Lemma reachable_stored_options_wf s : reachable s -> stored_options_wf s.
Proof.
  induction 1 as [page text | s s' _ IH Hstep].
  - intros o. discriminate.
  - exact (wf_step_relation s s' Hstep IH).
Qed.

(** *** Single-page scan *)

Ltac trace_simpl :=
  simpl; rewrite <- ?app_assoc; simpl; rewrite ?drop_app_length, ?drop_all.

(** C1, as amended. For every page already present in the scan cache,
    when options are stored, [onScanCurrentPage] displays exactly the cached
    text of the page and dispatches no request: it touches nothing but the
    cancellation flag, which it clears, and the displayed content. *)
Theorem scan_current_page_cached (env : Env) (s : State) (o : OcrOptions) (text : string) :
  stored_options s = Some o ->
  saved_scanned_pages s !! Some (current_page s) = Some text ->
  exec (onScanCurrentPage env) s = with_content text (with_ocr_cancelled false s)
  /\ content (exec (onScanCurrentPage env) s) = text
  /\ emitted (onScanCurrentPage env) s = []
  /\ _wait_dlg (exec (onScanCurrentPage env) s) = _wait_dlg s.
Proof.
  intros Hstored Hpage. run. simpl. rewrite Hstored. simpl. rewrite Hpage.
  simpl. rewrite drop_all. auto.
Qed.

(** Back on page 3, scanned before with options that were kept, a scan shows its text. *)
Lemma scan_current_page_cached_witness :
  content (exec (onScanCurrentPage Sample.no_languages)
             (exec (navigate Sample.no_languages 3 "") Sample.scanned_kept))
  = "hello".
Proof.
  apply (scan_current_page_cached Sample.no_languages
           (exec (navigate Sample.no_languages 3 "") Sample.scanned_kept)
           Sample.kept "hello"); reflexivity.
Defined.

(** C1, as stated, fails: in a session that scanned page 3 with options not
    to be stored and came back to the page, the page is in the scan cache,
    yet scanning it shows the options dialog, which clears the cache, and
    dispatches a request; the cached text is not displayed. *)
Lemma cached_page_rescanned_without_stored_options :
  reachable Sample.revisited
  /\ saved_scanned_pages Sample.revisited !! Some (current_page Sample.revisited)
     = Some "hello"
  /\ content (exec (onScanCurrentPage Sample.answers_once) Sample.revisited)
     <> "hello"
  /\ existsb is_engine_task
       (emitted (onScanCurrentPage Sample.answers_once) Sample.revisited) = true.
Proof.
  split; [| split; [| split]].
  - unfold Sample.revisited, Sample.scanned_once.
    repeat (eapply reachable_step; [| constructor]). constructor.
  - reflexivity.
  - vm_compute. discriminate.
  - reflexivity.
Qed.

(** C2. The result callback of a page scan stores the text under the
    result's cookie; when the cookie is not the page now displayed it leaves
    the content and the text direction as they are, and when it is, it
    displays the text in the direction of the scan's language. The same
    holds of the whole delivery of a result that was not cancelled. *)
Theorem ocr_callback_caches_and_displays (ocr_opts : OcrOptions) (r : OcrResult) (s : State) :
  let s' := exec (_ocr_callback ocr_opts r) s in
  let s'' := exec (_process_ocr_result (_ocr_callback ocr_opts) (task_returns r))
                  (with_ocr_cancelled false s) in
  saved_scanned_pages s' = <[cookie r := recognized_text r]> (saved_scanned_pages s)
  /\ saved_scanned_pages s'' = saved_scanned_pages s'
  /\ content s'' = content s'
  /\ text_direction_rtl s'' = text_direction_rtl s'
  /\ (cookie r <> Some (current_page s) ->
      content s' = content s /\ text_direction_rtl s' = text_direction_rtl s)
  /\ (cookie r = Some (current_page s) ->
      content s' = recognized_text r
      /\ text_direction_rtl s' = is_rtl (language ocr_opts)).
Proof.
  run. simpl. case_decide; simpl; repeat split; intros; congruence.
Qed.

(** The result of page 4 arrives while page 3 is displayed. *)
Lemma ocr_callback_caches_and_displays_witness :
  content (exec (_ocr_callback Sample.once Sample.page4) Sample.scanned_once)
  = "hello"
  /\ text_direction_rtl
       (exec (_ocr_callback Sample.once Sample.page4) Sample.scanned_once)
     = true.
Proof.
  apply (ocr_callback_caches_and_displays Sample.once Sample.page4
           Sample.scanned_once).
  vm_compute. discriminate.
Defined.

(** *** Result delivery *)

(** What a delivery emits when the flag is set, whatever the task and the
    callback. *)
Lemma process_cancelled (callback : OcrResult -> M unit) (task : Task) (s : State) :
  _ocr_cancelled s = true ->
  exec (_process_ocr_result callback task) s
  = with_ocr_cancelled false (with_trace (trace s ++ [ocr_ended true]) s).
Proof. intros Hc. run. simpl. rewrite Hc. reflexivity. Qed.

(** What a delivery does with a result when the flag is not set. *)
Lemma process_returns (callback : OcrResult -> M unit) (r : OcrResult) (s : State) :
  _ocr_cancelled s = false ->
  exec (_process_ocr_result callback (task_returns r)) s
  = exec (callback r ;;
          emit (sound_play ocr_end) ;;
          emit (speech_announce "Scan finished.") ;;
          emit focus_content ;;
          emit (ocr_ended false)) s.
Proof.
  intros Hc. run. simpl. rewrite Hc. destruct (callback r s). reflexivity.
Qed.

(** The closures of the menu only add to the trace, and no ended signal. *)
Lemma run_callback_trace (cb : Callback) (r : OcrResult) (s : State) :
  exists l, trace (exec (run_callback cb r) s) = trace s ++ l
            /\ forall b, count_ended b l = 0%nat.
Proof.
  destruct cb; run; simpl.
  - exists []. rewrite app_nil_r. split; [| reflexivity].
    case_decide; reflexivity.
  - exists [set_status "OCR Results"]. split; [| reflexivity].
    destruct (reader_ready s); reflexivity.
Qed.

Lemma count_ended_app b l1 l2 :
  count_ended b (l1 ++ l2) = (count_ended b l1 + count_ended b l2)%nat.
Proof. unfold count_ended. rewrite List.filter_app. apply length_app. Qed.

(** A delivery to a closure of the menu sends one ended signal, or none
    when an exception that is not an [Exception] leaves it. *)
Lemma process_sends_one_ended (cb : Callback) (task : Task) (s : State) :
  (count_ended true (emitted (_process_ocr_result (run_callback cb) task) s)
   + count_ended false (emitted (_process_ocr_result (run_callback cb) task) s))%nat
  = match task with
    | task_raises_base _ => if _ocr_cancelled s then 1%nat else 0%nat
    | _ => 1%nat
    end.
Proof.
  destruct (_ocr_cancelled s) eqn:Hc.
  - unfold emitted. rewrite process_cancelled by exact Hc. trace_simpl.
    destruct task; reflexivity.
  - destruct task as [r | exc | exc].
    + destruct (run_callback_trace cb r s) as (l & Hl & Hcount).
      erewrite emitted_app.
      2:{ rewrite process_returns by exact Hc.
          unfold exec in *. cbv [mbind M_bind emit modify] in *.
          destruct (run_callback cb r s) as [u s1]. simpl in *. rewrite Hl.
          rewrite <- !app_assoc. reflexivity. }
      rewrite !count_ended_app, !Hcount. reflexivity.
    + run. simpl. rewrite Hc. trace_simpl. reflexivity.
    + run. simpl. rewrite Hc. trace_simpl. reflexivity.
Qed.

(** C3. When the cancellation flag is set as a completion arrives, result
    processing is the same whatever the callback and the task are, so the
    success callback is not invoked: it only clears the flag and sends one
    ended signal, with [isfaulted=True]. That is the case after the wait
    dialog was dismissed. And no delivery sends both a faulted and a
    non-faulted ended signal: each sends one ended signal in all, but for
    the delivery that an exception which is not an [Exception] leaves with
    the flag clear, which sends none. *)
Theorem cancelled_result_is_discarded (callback : OcrResult -> M unit) (task : Task) (s : State) :
  _ocr_cancelled s = true ->
  exec (_process_ocr_result callback task) s
  = with_ocr_cancelled false (with_trace (trace s ++ [ocr_ended true]) s)
  /\ emitted (_process_ocr_result callback task) s = [ocr_ended true]
  /\ count_ended true (emitted (_process_ocr_result callback task) s) = 1%nat
  /\ count_ended false (emitted (_process_ocr_result callback task) s) = 0%nat
  /\ emitted (_process_ocr_result callback task) (exec _on_ocr_cancelled s)
     = [ocr_ended true]
  /\ (forall cb task' s',
        (count_ended true (emitted (_process_ocr_result (run_callback cb) task') s')
         + count_ended false
             (emitted (_process_ocr_result (run_callback cb) task') s'))%nat
        = match task' with
          | task_raises_base _ => if _ocr_cancelled s' then 1%nat else 0%nat
          | _ => 1%nat
          end).
Proof.
  intros Hc.
  assert (He : emitted (_process_ocr_result callback task) s = [ocr_ended true]).
  { apply emitted_app. rewrite process_cancelled by exact Hc. reflexivity. }
  rewrite He. repeat split.
  - apply process_cancelled, Hc.
  - apply emitted_app. rewrite process_cancelled by reflexivity. reflexivity.
  - apply process_sends_one_ended.
Qed.

(** The result of a scan whose wait dialog was dismissed. *)
Lemma cancelled_result_is_discarded_witness :
  emitted (_process_ocr_result (run_callback (page_callback Sample.kept))
             (task_returns Sample.page3)) Sample.dismissed
  = [ocr_ended true].
Proof.
  apply (cancelled_result_is_discarded
           (run_callback (page_callback Sample.kept))
           (task_returns Sample.page3) Sample.dismissed).
  reflexivity.
Defined.

(** C4, as amended. When the background recognition call raised an
    instance of [Exception], result processing is the same whatever the
    callback is, so the success callback is not invoked; it returns, the
    exception going no further, sends one ended signal, with
    [isfaulted=True], and no other, and leaves the displayed content, the
    text direction and the scan cache as they were. It logs the exception
    when the cancellation flag is not set as the completion arrives; when the
    flag is set the completion is discarded before the task's result is
    asked for, and nothing is logged. An exception that is not an
    [Exception] is discarded in the same way when the flag is set; when it
    is not, the exception leaves result processing, which logs nothing,
    sends no signal and changes nothing. *)
Theorem raised_task_is_faulted (callback : OcrResult -> M unit) (exc : string) (s : State) :
  let m := _process_ocr_result callback (task_raises exc) in
  let b := _process_ocr_result callback (task_raises_base exc) in
  eval m s = returned
  /\ count_ended true (emitted m s) = 1%nat
  /\ count_ended false (emitted m s) = 0%nat
  /\ content (exec m s) = content s
  /\ text_direction_rtl (exec m s) = text_direction_rtl s
  /\ saved_scanned_pages (exec m s) = saved_scanned_pages s
  /\ stored_options (exec m s) = stored_options s
  /\ m s = _process_ocr_result (fun _ => mret tt) (task_raises exc) s
  /\ (_ocr_cancelled s = false ->
      emitted m s
      = [log_exception "Error getting OCR recognition results."; ocr_ended true])
  /\ (_ocr_cancelled s = true -> emitted m s = [ocr_ended true])
  /\ (_ocr_cancelled s = false -> b s = (propagated exc, s))
  /\ (_ocr_cancelled s = true ->
      b s = (returned,
             with_ocr_cancelled false (with_trace (trace s ++ [ocr_ended true]) s))).
Proof.
  run. simpl. destruct (_ocr_cancelled s); trace_simpl;
    repeat split; intros; congruence.
Qed.

(** The recognition of a running scan raises. *)
Lemma raised_task_is_faulted_witness :
  emitted (_process_ocr_result (run_callback (page_callback Sample.kept))
             (task_raises "engine failure"))
    (exec (onScanCurrentPage Sample.answers_kept) (initial 3 ""))
  = [log_exception "Error getting OCR recognition results."; ocr_ended true]
  /\ _process_ocr_result (run_callback (page_callback Sample.kept))
       (task_raises_base "KeyboardInterrupt")
       (exec (onScanCurrentPage Sample.answers_kept) (initial 3 ""))
     = (propagated "KeyboardInterrupt",
        exec (onScanCurrentPage Sample.answers_kept) (initial 3 "")).
Proof.
  destruct (raised_task_is_faulted (run_callback (page_callback Sample.kept))
              "engine failure"
              (exec (onScanCurrentPage Sample.answers_kept) (initial 3 "")))
    as (_ & _ & _ & _ & _ & _ & _ & _ & Hlog & _).
  destruct (raised_task_is_faulted (run_callback (page_callback Sample.kept))
              "KeyboardInterrupt"
              (exec (onScanCurrentPage Sample.answers_kept) (initial 3 "")))
    as (_ & _ & _ & _ & _ & _ & _ & _ & _ & _ & Hbase & _).
  split; [exact (Hlog eq_refl) | exact (Hbase eq_refl)].
Defined.

(** C4, as stated, fails. The recognition call of a scan whose wait dialog
    was dismissed raises, and result processing logs nothing. And the
    recognition call of a running scan raises what is not an [Exception]:
    it leaves result processing, with nothing logged and no ended signal. *)
Lemma raised_task_not_logged_when_cancelled :
  (_ocr_cancelled Sample.dismissed = true
   /\ emitted (_process_ocr_result (run_callback (page_callback Sample.kept))
                 (task_raises "engine failure")) Sample.dismissed
      = [ocr_ended true]
   /\ log_exception "Error getting OCR recognition results."
      ∉ trace (exec (_process_ocr_result (run_callback (page_callback Sample.kept))
                       (task_raises "engine failure")) Sample.dismissed))
  /\ (eval (_process_ocr_result (run_callback (page_callback Sample.kept))
              (task_raises_base "KeyboardInterrupt"))
        (exec (onScanCurrentPage Sample.answers_kept) (initial 3 ""))
      = propagated "KeyboardInterrupt"
      /\ emitted (_process_ocr_result (run_callback (page_callback Sample.kept))
                    (task_raises_base "KeyboardInterrupt"))
           (exec (onScanCurrentPage Sample.answers_kept) (initial 3 ""))
         = []).
Proof.
  split; [split; [reflexivity | split; [reflexivity |]] | split; reflexivity].
  vm_compute. intros H.
  repeat (apply elem_of_cons in H; destruct H as [H | H]; [discriminate |]).
  by apply elem_of_nil in H.
Qed.

(** *** Options resolution *)

(** C5. A resolution that does not use the stored options
    ([from_cache=False]) leaves the scan cache empty. And in every state of
    a session, after a resolution that returns options, the slot of the
    stored options holds them if their [store_options] flag is set, and
    [None] otherwise. *)
Theorem get_ocr_options_cache_and_slot (env : Env) (from_cache force_save : bool) (s : State) :
  let m := _get_ocr_options env from_cache force_save in
  (from_cache = false -> saved_scanned_pages (exec m s) = ∅)
  /\ (reachable s ->
      forall o, eval m s = Some o ->
        stored_options (exec m s) = if store_options o then Some o else None).
Proof.
  run. simpl. split.
  - intros ->. simpl.
    destruct (get_sorted_languages env); simpl;
      destruct (ShowModal env) as [o|]; simpl;
      try destruct (store_options o); reflexivity.
  - intros Hwf%reachable_stored_options_wf o. unfold stored_options_wf in Hwf.
    destruct from_cache; simpl.
    + destruct (stored_options s) as [o'|] eqn:Hs; simpl.
      * intros [= <-]. rewrite Hs. rewrite (Hwf o') by reflexivity. reflexivity.
      * destruct (get_sorted_languages env); simpl; [discriminate |].
        destruct (ShowModal env) as [o''|]; simpl; [| discriminate].
        destruct (store_options o'') eqn:Ho; simpl; intros [= <-];
          rewrite Ho; reflexivity.
    + destruct (get_sorted_languages env); simpl; [discriminate |].
      destruct (ShowModal env) as [o''|]; simpl; [| discriminate].
      destruct (store_options o'') eqn:Ho; simpl; intros [= <-];
        rewrite Ho; reflexivity.
Qed.

(** Options changed for one scan only, and options found stored. *)
Lemma get_ocr_options_cache_and_slot_witness :
  saved_scanned_pages
    (exec (_get_ocr_options Sample.answers_once false false) Sample.scanned_kept)
  = ∅
  /\ stored_options
       (exec (_get_ocr_options Sample.answers_once false false) Sample.scanned_kept)
     = None
  /\ stored_options
       (exec (_get_ocr_options Sample.answers_once true false) Sample.scanned_kept)
     = Some Sample.kept.
Proof.
  assert (Hr : reachable Sample.scanned_kept).
  { unfold Sample.scanned_kept.
    repeat (eapply reachable_step; [| constructor]). constructor. }
  destruct (get_ocr_options_cache_and_slot Sample.answers_once false false
              Sample.scanned_kept) as [Hcache Hslot].
  destruct (get_ocr_options_cache_and_slot Sample.answers_once true false
              Sample.scanned_kept) as [_ Hkept].
  split; [exact (Hcache eq_refl) | split].
  - exact (Hslot Hr Sample.once eq_refl).
  - exact (Hkept Hr Sample.kept eq_refl).
Defined.

(** C6, as amended. When no OCR language is available and the resolution
    does not return stored options (it is made with [from_cache=False], or
    nothing is stored), it shows the blocking notice and nothing else (no
    dialog, no request), returns no options and leaves nothing stored. Made
    with [from_cache=True] it changes neither the stored options nor the
    scan cache; made with [from_cache=False] it has reset the stored options
    and emptied the scan cache before it asks for the languages. The dialog
    function itself only shows the notice. *)
Theorem no_languages_resolution (env : Env) (from_cache force_save : bool) (s : State) :
  get_sorted_languages env = [] ->
  from_cache = false \/ stored_options s = None ->
  let m := _get_ocr_options env from_cache force_save in
  eval m s = None
  /\ emitted m s = [message_box "No Languages for OCR"]
  /\ _wait_dlg (exec m s) = _wait_dlg s
  /\ content (exec m s) = content s
  /\ stored_options (exec m s) = None
  /\ (from_cache = true ->
      stored_options (exec m s) = stored_options s
      /\ saved_scanned_pages (exec m s) = saved_scanned_pages s)
  /\ (from_cache = false -> saved_scanned_pages (exec m s) = ∅)
  /\ (forall last,
        _get_ocr_options_from_dlg env last force_save s
        = (None, with_trace (trace s ++ [message_box "No Languages for OCR"]) s)).
Proof.
  intros Hlangs Hpath. run. simpl. rewrite Hlangs.
  destruct from_cache; simpl.
  - destruct Hpath as [? | Hs]; [discriminate |]. rewrite Hs. trace_simpl.
    repeat split; intros; congruence.
  - trace_simpl. repeat split; intros; congruence.
Qed.

(** Scan to text file is chosen when no language is installed. *)
Lemma no_languages_resolution_witness :
  eval (_get_ocr_options Sample.no_languages false true) Sample.scanned_kept = None
  /\ emitted (_get_ocr_options Sample.no_languages false true) Sample.scanned_kept
     = [message_box "No Languages for OCR"].
Proof.
  destruct (no_languages_resolution Sample.no_languages false true
              Sample.scanned_kept eq_refl (or_introl eq_refl))
    as (Hnone & Hbox & _).
  split; [exact Hnone | exact Hbox].
Defined.

(** C6, as stated, fails. With options stored and page 3 in the scan cache
    and no language available, a resolution with [from_cache=False] ends
    with nothing stored and an empty cache; and a resolution with
    [from_cache=True] returns the stored options without any notice. *)
Lemma resolution_without_languages_changes_state :
  (stored_options Sample.scanned_kept = Some Sample.kept
   /\ saved_scanned_pages Sample.scanned_kept !! Some 3 = Some "hello")
  /\ (stored_options
        (exec (_get_ocr_options Sample.no_languages false false) Sample.scanned_kept)
      <> stored_options Sample.scanned_kept
      /\ saved_scanned_pages
           (exec (_get_ocr_options Sample.no_languages false false) Sample.scanned_kept)
           !! Some 3 = None)
  /\ (eval (_get_ocr_options Sample.no_languages true false) Sample.scanned_kept
      = Some Sample.kept
      /\ emitted (_get_ocr_options Sample.no_languages true false) Sample.scanned_kept
         = []).
Proof.
  repeat split; try reflexivity. vm_compute. discriminate.
Qed.

(** *** Cancellation *)

Lemma scan_current_page_clears_flag (env : Env) (s : State) :
  _ocr_cancelled (exec (onScanCurrentPage env) s) = false.
Proof.
  run. simpl.
  destruct (stored_options s) as [o|]; simpl.
  - destruct (saved_scanned_pages s !! Some (current_page s)); reflexivity.
  - destruct (get_sorted_languages env); simpl; [reflexivity |].
    destruct (ShowModal env) as [o|]; simpl; [| reflexivity].
    destruct (store_options o); simpl; rewrite lookup_empty; reflexivity.
Qed.

(** C10. When the cancellation flag is set as a completion is processed,
    the result is discarded and the flag is cleared by that same processing;
    the next completion that carries a result, with no cancellation in
    between, has its callback invoked and sends the non-faulted ended signal
    (and, for the closures of the menu, no faulted one). And every
    single-page scan first clears the flag: it ends with the flag clear, it
    runs as from a state with the flag clear, and a result delivered after it
    reaches the callback. *)
Theorem cancellation_is_consumed_once
    (callback callback' : OcrResult -> M unit) (task : Task) (r : OcrResult) (s : State) :
  _ocr_cancelled s = true ->
  let s1 := exec (_process_ocr_result callback task) s in
  let delivered (cb : OcrResult -> M unit) :=
    cb r ;;
    emit (sound_play ocr_end) ;;
    emit (speech_announce "Scan finished.") ;;
    emit focus_content ;;
    emit (ocr_ended false) in
  s1 = with_ocr_cancelled false (with_trace (trace s ++ [ocr_ended true]) s)
  /\ _ocr_cancelled s1 = false
  /\ exec (_process_ocr_result callback' (task_returns r)) s1
     = exec (delivered callback') s1
  /\ (forall cb,
        count_ended false
          (emitted (_process_ocr_result (run_callback cb) (task_returns r)) s1)
        = 1%nat
        /\ count_ended true
             (emitted (_process_ocr_result (run_callback cb) (task_returns r)) s1)
           = 0%nat)
  /\ (forall env s0,
        _ocr_cancelled (exec (onScanCurrentPage env) s0) = false
        /\ exec (onScanCurrentPage env) s0
           = exec (onScanCurrentPage env) (with_ocr_cancelled false s0)
        /\ exec (_process_ocr_result callback' (task_returns r))
             (exec (onScanCurrentPage env) s0)
           = exec (delivered callback') (exec (onScanCurrentPage env) s0)).
Proof.
  intros Hc s1 delivered.
  assert (Hs1 : s1 = with_ocr_cancelled false
                       (with_trace (trace s ++ [ocr_ended true]) s))
    by (apply process_cancelled, Hc).
  assert (Hc1 : _ocr_cancelled s1 = false) by (rewrite Hs1; reflexivity).
  split; [exact Hs1 | split; [exact Hc1 | split; [| split]]].
  - apply process_returns, Hc1.
  - intros cb.
    destruct (run_callback_trace cb r s1) as (l & Hl & Hcount).
    erewrite emitted_app.
    2:{ rewrite process_returns by exact Hc1.
        unfold exec in *. cbv [mbind M_bind emit modify] in *.
        destruct (run_callback cb r s1) as [u s2]. simpl in *. rewrite Hl.
        rewrite <- !app_assoc. reflexivity. }
    rewrite !count_ended_app, !Hcount. split; reflexivity.
  - intros env s0. split; [apply scan_current_page_clears_flag | split].
    + reflexivity.
    + apply process_returns, scan_current_page_clears_flag.
Qed.

(** Two results arrive after one dismissal: the second is displayed. *)
Lemma cancellation_is_consumed_once_witness :
  content
    (exec (_process_ocr_result (run_callback (page_callback Sample.kept))
             (task_returns Sample.page3))
       (exec (_process_ocr_result (run_callback (page_callback Sample.kept))
                (task_returns Sample.page3)) Sample.dismissed))
  = "hello"
  /\ _ocr_cancelled
       (exec (_process_ocr_result (run_callback (page_callback Sample.kept))
                (task_returns Sample.page3)) Sample.dismissed)
     = false.
Proof.
  destruct (cancellation_is_consumed_once
              (run_callback (page_callback Sample.kept))
              (run_callback (page_callback Sample.kept))
              (task_returns Sample.page3) Sample.page3 Sample.dismissed eq_refl)
    as (_ & Hflag & Hdelivered & _).
  split; [rewrite Hdelivered; reflexivity | exact Hflag].
Defined.

End OCRSpec.

(** ** Properties of the Word document converter *)

Module WordSpec.

Import Word.

(** The test suite of RFC 1321, appendix A.5. *)
Lemma md5_test_suite :
  MD5.hexdigest "" = "d41d8cd98f00b204e9800998ecf8427e"
  /\ MD5.hexdigest "a" = "0cc175b9c0f1b6a831c399e269772661"
  /\ MD5.hexdigest "abc" = "900150983cd24fb0d6963f7d28e17f72"
  /\ MD5.hexdigest "message digest" = "f96b697d7cb7938d525a2f31aaf161d0"
  /\ MD5.hexdigest "abcdefghijklmnopqrstuvwxyz"
     = "c3fcd3d76192e4007dfb496cca67e13b"
  /\ MD5.hexdigest
       "ABCDEFGHIJKLMNOPQRSTUVWXYZabcdefghijklmnopqrstuvwxyz0123456789"
     = "d174ab98d277d9f5a5611c2c9f419d9f"
  /\ MD5.hexdigest
       ("1234567890123456789012345678901234567890"
        +:+ "1234567890123456789012345678901234567890")
     = "57edf4a22be3c955ac49da2e2107b67a".
Proof. vm_compute. repeat split. Qed.

Ltac run :=
  cbv [get_converted_filename generate_file_md5 make_proper_html
       docx_core_properties lift read mammoth_convert read_bytes path_exists
       write_text raise mbind W_bind mret W_ret negb] in *.

(** *** The files of the examples *)

(** The sample document is an archive of 912 bytes, and so are the two
    documents that differ in their leading blocks; the text file is none. *)
Lemma sample_files :
  String.length Sample.hello_docx = 912%nat
  /\ Sample.is_zipfile Sample.hello_docx = true
  /\ Sample.is_zipfile Sample.collision_a = true
  /\ Sample.is_zipfile Sample.collision_b = true
  /\ Sample.is_zipfile "plain text" = false.
Proof. vm_compute. repeat split. Qed.

(** The digests of the sample files, as [md5sum] gives them. *)
Lemma sample_digests :
  MD5.hexdigest Sample.hello_docx = "c0bd03d892613e178159d6f47568e5d2"
  /\ MD5.hexdigest Sample.collision_a = "2e4ee504c6ea9a8c7a51ab22a845cd5d"
  /\ MD5.hexdigest Sample.collision_b = "2e4ee504c6ea9a8c7a51ab22a845cd5d"
  /\ MD5.hexdigest "plain text" = "31bc5c2b8fd4f20cd747347b7504a385".
Proof. vm_compute. repeat split. Qed.

(** *** File names *)

Lemma length_le_bytes n x : length (MD5.le_bytes n x) = n.
Proof. revert x. induction n as [|n IH]; intros x; simpl; [| rewrite IH]; reflexivity. Qed.

Lemma length_hex bs : String.length (MD5.hex bs) = (2 * length bs)%nat.
Proof. induction bs as [|b bs IH]; simpl; [| rewrite IH]; lia. Qed.

(** A digest is 16 bytes, written with 32 digits. *)
Lemma length_hexdigest data : String.length (MD5.hexdigest data) = 32%nat.
Proof.
  unfold MD5.hexdigest, MD5.digest. rewrite length_hex.
  destruct (fold_left _ _ _) as [[[a b] c] d].
  rewrite !length_app, !length_le_bytes. reflexivity.
Qed.

Lemma append_inj_suffix (x y suffix : string) :
  String.length x = String.length y -> x +:+ suffix = y +:+ suffix -> x = y.
Proof.
  revert y. induction x as [|a x IH]; intros [|b y]; simpl; try discriminate.
  - reflexivity.
  - intros [= Hlen] [= -> Happ]. f_equal. apply IH; assumption.
Qed.

(** Files with different digests have different converted files. *)
Lemma target_of_inj lib data data' :
  target_of lib data = target_of lib data' ->
  MD5.hexdigest data = MD5.hexdigest data'.
Proof.
  unfold target_of, path_join. intros H.
  apply String.app_inj in H. apply (String.app_inj "/") in H.
  apply append_inj_suffix in H; [exact H |].
  rewrite !length_hexdigest. reflexivity.
Qed.

(** *** The runs of the conversion *)

(** How a conversion ends, from the disk it starts on. *)
Lemma convert_outcome lib filename d :
  get_converted_filename lib filename d
  = match files d !! filename with
    | None => (raises (FileNotFoundError filename), d)
    | Some data =>
        match files d !! target_of lib data with
        | Some _ => (returns (target_of lib data), d)
        | None =>
            match converted lib filename data with
            | returns html =>
                (returns (target_of lib data),
                 written filename (target_of lib data) html d)
            | raises e => (raises e, called filename d)
            end
        end
    end.
Proof.
  run. destruct (files d !! filename) as [data|] eqn:Hfile; [| reflexivity].
  fold (target_of lib data).
  destruct (files d !! target_of lib data) as [html|] eqn:Ht.
  - rewrite bool_decide_true by eauto. reflexivity.
  - rewrite bool_decide_false by apply is_Some_None.
    unfold converted, proper_html, written, called. simpl.
    rewrite Hfile. simpl.
    destruct (convert_to_html lib data) as [result | e]; [| reflexivity].
    destruct (body_html lib result) as [body | e]; [| reflexivity].
    simpl. rewrite Hfile.
    destruct (core_properties lib data) as [props | e]; reflexivity.
Qed.

Lemma convert_missing lib filename d :
  files d !! filename = None ->
  get_converted_filename lib filename d = (raises (FileNotFoundError filename), d).
Proof. intros Hfile. rewrite convert_outcome, Hfile. reflexivity. Qed.

Lemma convert_cached lib filename data d :
  files d !! filename = Some data ->
  is_Some (files d !! target_of lib data) ->
  get_converted_filename lib filename d = (returns (target_of lib data), d).
Proof.
  intros Hfile [html Htarget]. rewrite convert_outcome, Hfile, Htarget.
  reflexivity.
Qed.

Lemma convert_fresh lib filename data d :
  files d !! filename = Some data ->
  files d !! target_of lib data = None ->
  get_converted_filename lib filename d
  = match converted lib filename data with
    | returns html =>
        (returns (target_of lib data),
         written filename (target_of lib data) html d)
    | raises e => (raises e, called filename d)
    end.
Proof.
  intros Hfile Htarget. rewrite convert_outcome, Hfile, Htarget. reflexivity.
Qed.

(** A conversion that returns leaves the converted file on the disk, under
    the name of the digest. *)
Lemma convert_returns lib filename data d t :
  files d !! filename = Some data ->
  fst (get_converted_filename lib filename d) = returns t ->
  t = target_of lib data
  /\ is_Some (files (snd (get_converted_filename lib filename d))
                !! target_of lib data).
Proof.
  intros Hfile. rewrite convert_outcome, Hfile.
  destruct (files d !! target_of lib data) as [html|] eqn:Ht; simpl.
  - intros [= <-]. rewrite Ht. eauto.
  - destruct (converted lib filename data) as [html | e]; simpl; [| discriminate].
    intros [= <-]. rewrite lookup_insert_eq. eauto.
Qed.

(** C7, as amended. The converted file of a document is named by the MD5
    digest of its bytes, and a conversion that finds it on the disk returns
    it and does nothing else; one that does not find it calls the external
    converter once and writes the HTML made from the document, or ends with
    the converter's exception and writes nothing. So, after a conversion
    that returned: the converted file is on the disk; converting a file with
    identical bytes, or any file with the same digest, returns the same file
    and leaves the disk and the calls of the converter as they were; a file
    with a different digest has another converted file, which one call of
    the converter creates when it is not on the disk yet. After a conversion
    that raised, nothing is kept and the next one calls the converter
    again. *)
Theorem conversion_is_cached_by_digest (lib : Library) (d : Disk) (filename data : string) :
  files d !! filename = Some data ->
  let t := target_of lib data in
  let first := get_converted_filename lib filename d in
  let d1 := snd first in
  first
  = match files d !! t with
    | Some _ => (returns t, d)
    | None =>
        match converted lib filename data with
        | returns html => (returns t, written filename t html d)
        | raises e => (raises e, called filename d)
        end
    end
  /\ (fst first = returns t ->
      is_Some (files d1 !! t)
      /\ (forall filename',
            files d1 !! filename' = Some data ->
            get_converted_filename lib filename' d1 = (returns t, d1))
      /\ (forall filename' data',
            files d1 !! filename' = Some data' ->
            MD5.hexdigest data' = MD5.hexdigest data ->
            get_converted_filename lib filename' d1 = (returns t, d1))
      /\ (forall filename' data',
            files d1 !! filename' = Some data' ->
            MD5.hexdigest data' <> MD5.hexdigest data ->
            target_of lib data' <> t
            /\ (files d1 !! target_of lib data' = None ->
                get_converted_filename lib filename' d1
                = match converted lib filename' data' with
                  | returns html =>
                      (returns (target_of lib data'),
                       written filename' (target_of lib data') html d1)
                  | raises e => (raises e, called filename' d1)
                  end)))
  /\ (forall e,
        fst first = raises e ->
        d1 = called filename d
        /\ get_converted_filename lib filename d1
           = (raises e, called filename d1)).
Proof.
  intros Hfile t first d1. split; [| split].
  - subst first t. rewrite convert_outcome, Hfile. reflexivity.
  - intros Hfst.
    destruct (convert_returns lib filename data d t Hfile Hfst) as [_ Hsnd].
    fold first d1 t in Hsnd.
    assert (Hsame : forall filename' data',
              files d1 !! filename' = Some data' ->
              MD5.hexdigest data' = MD5.hexdigest data ->
              get_converted_filename lib filename' d1 = (returns t, d1)).
    { intros filename' data' Hfile' Hdigest.
      assert (Ht : target_of lib data' = t)
        by (subst t; unfold target_of; rewrite Hdigest; reflexivity).
      rewrite <- Ht. apply convert_cached; [exact Hfile' |].
      rewrite Ht. exact Hsnd. }
    split; [exact Hsnd | split; [| split; [exact Hsame |]]].
    + intros filename' Hfile'. apply (Hsame filename' data Hfile' eq_refl).
    + intros filename' data' Hfile' Hdigest. split.
      * intros Heq. apply Hdigest, (target_of_inj lib), Heq.
      * intros Hnone. apply convert_fresh; assumption.
  - intros e. subst d1 first. rewrite convert_outcome, Hfile. fold t.
    destruct (files d !! t) as [html|] eqn:Ht; simpl; [discriminate |].
    destruct (converted lib filename data) as [html | e'] eqn:Hconv; simpl;
      [discriminate |].
    intros [= ->]. split; [reflexivity |].
    rewrite (convert_fresh lib filename data (called filename d)) by assumption.
    rewrite Hconv. reflexivity.
Qed.

(** The report is converted, then its copy. *)
Lemma conversion_is_cached_by_digest_witness :
  get_converted_filename Sample.lib "/docs/copy.docx"
    (snd (get_converted_filename Sample.lib "/docs/report.docx" Sample.disk))
  = (returns "/data/docx_as_html/c0bd03d892613e178159d6f47568e5d2.html",
     snd (get_converted_filename Sample.lib "/docs/report.docx" Sample.disk)).
Proof.
  destruct (conversion_is_cached_by_digest Sample.lib Sample.disk
              "/docs/report.docx" Sample.hello_docx eq_refl) as (_ & Hok & _).
  destruct Hok as (_ & Hreuse & _); [vm_compute; reflexivity |].
  assert (Ht : target_of Sample.lib Sample.hello_docx
               = "/data/docx_as_html/c0bd03d892613e178159d6f47568e5d2.html")
    by (vm_compute; reflexivity).
  rewrite <- Ht.
  apply (Hreuse "/docs/copy.docx"). vm_compute. reflexivity.
Defined.

(** C7, as stated, fails in two ways. Two Word documents whose bytes differ
    and whose MD5 digests are equal share one converted file: each converts
    on a disk of its own, and on one disk converting the second after the
    first returns the first one's file, makes no new entry and does not call
    the converter. And a file that the converter cannot open has no
    converted file to reuse: converting it twice calls the converter
    twice. *)
Lemma different_bytes_share_converted_file :
  (Sample.collision_a <> Sample.collision_b
   /\ files Sample.colliding_disk !! "/docs/a.docx" = Some Sample.collision_a
   /\ files Sample.colliding_disk !! "/docs/b.docx" = Some Sample.collision_b
   /\ (exists html, converted Sample.lib "/docs/a.docx" Sample.collision_a = returns html)
   /\ (exists html, converted Sample.lib "/docs/b.docx" Sample.collision_b = returns html)
   /\ let first := get_converted_filename Sample.lib "/docs/a.docx" Sample.colliding_disk in
      fst first = returns (target_of Sample.lib Sample.collision_a)
      /\ converter_calls (snd first) = ["/docs/a.docx"]
      /\ get_converted_filename Sample.lib "/docs/b.docx" (snd first)
         = (fst first, snd first))
  /\ (files Sample.disk !! "/docs/plain.docx" = Some "plain text"
      /\ let first := get_converted_filename Sample.lib "/docs/plain.docx" Sample.disk in
         let second := get_converted_filename Sample.lib "/docs/plain.docx" (snd first) in
         fst first = raises (LibraryError "BadZipFile")
         /\ fst second = raises (LibraryError "BadZipFile")
         /\ files (snd second) = files Sample.disk
         /\ converter_calls (snd second)
            = ["/docs/plain.docx"; "/docs/plain.docx"]).
Proof.
  split.
  - split; [vm_compute; discriminate |].
    split; [reflexivity |]. split; [reflexivity |].
    split; [eexists; vm_compute; reflexivity |].
    split; [eexists; vm_compute; reflexivity |].
    vm_compute. repeat split.
  - split; [reflexivity |].
    assert (Hconv : converted Sample.lib "/docs/plain.docx" "plain text"
                    = raises (LibraryError "BadZipFile"))
      by (vm_compute; reflexivity).
    assert (Hnone : files Sample.disk !! target_of Sample.lib "plain text" = None)
      by (vm_compute; reflexivity).
    cbv zeta.
    rewrite (convert_fresh Sample.lib "/docs/plain.docx" "plain text"
               Sample.disk eq_refl Hnone), Hconv.
    simpl.
    rewrite (convert_fresh Sample.lib "/docs/plain.docx" "plain text"
               (called "/docs/plain.docx" Sample.disk) eq_refl Hnone), Hconv.
    simpl. auto.
Qed.




End WordSpec.

(** ** Properties of the batch text extraction *)

Module BatchSpec.

Import OCR Batch.

(** The run over [n] pages from page [idx] on when the hook first answers
    yes before page [idx + k], or never within the [n] pages ([k = n]). *)
Lemma scan_pages_prefix engine ocr_opts should_stop idx n k :
  (k <= n)%nat ->
  (forall i, (idx <= i < idx + k)%nat -> should_stop i = false) ->
  (k < n -> should_stop (idx + k)%nat = true)%nat ->
  scan_pages engine ocr_opts should_stop idx n
  = {| yielded := seq idx k;
       output := concatenation (recognize_page engine ocr_opts <$> seq idx k);
       completed := bool_decide (k = n) |}.
Proof.
  revert idx k. induction n as [|n IH]; intros idx k Hk Hgo Hstop.
  - assert (k = 0)%nat as -> by lia. reflexivity.
  - simpl. destruct k as [|k].
    + rewrite Nat.add_0_r in Hstop. rewrite Hstop by lia. reflexivity.
    + rewrite Hgo by lia.
      rewrite (IH (S idx) k).
      * simpl. f_equal. apply bool_decide_ext. lia.
      * lia.
      * intros i Hi. apply Hgo. lia.
      * intros Hlt. replace (S idx + k)%nat with (idx + S k)%nat by lia.
        apply Hstop. lia.
Qed.

Lemma progress_updates_ui (f : nat -> UiEvent) (g : nat -> nat * string) l :
  (forall p, f p = progress_update (fst (g p)) (snd (g p))) ->
  progress_updates ((f <$> l) ++ [progress_dismiss; content_set_focus]) = g <$> l.
Proof.
  intros Hf. unfold progress_updates. rewrite omap_app. simpl.
  rewrite app_nil_r. induction l as [|p l IH]; csimpl; [reflexivity |].
  rewrite Hf. csimpl. rewrite IH. destruct (g p). reflexivity.
Qed.

(** C8. Over a document of [total] pages, an extraction that is not aborted
    makes [total] progress notifications, one per page in increasing page
    order, leaves in the output file the concatenation of the recognised text
    of all the pages, and ends with the completion notice. An extraction
    aborted before page [k] processes no page from [k] on: it notifies for
    the [k] pages before, leaves their text as partial output, and ends as
    a value, without the completion notice. *)
Theorem extraction_progress_and_output
    (engine : Engine) (total : nat) (ocr_opts : OcrOptions) (output_file : string)
    (should_stop : nat -> bool) :
  let run :=
    _continue_with_text_extraction engine total ocr_opts output_file should_stop in
  let notification (progress : nat) :=
    ((progress + 1)%nat, scanning_message progress total) in
  ((forall i, (i < total)%nat -> should_stop i = false) ->
   progress_updates (ui run) = notification <$> seq 0 total
   /\ length (progress_updates (ui run)) = total
   /\ (fst <$> progress_updates (ui run)) = seq 1 total
   /\ written run
      = concatenation (recognize_page engine ocr_opts <$> seq 0 total)
   /\ done_message run
      = Some (completed_message total output_file, "OCR Completed"))
  /\ (forall k,
        (k < total)%nat ->
        (forall i, (i < k)%nat -> should_stop i = false) ->
        should_stop k = true ->
        progress_updates (ui run) = notification <$> seq 0 k
        /\ length (progress_updates (ui run)) = k
        /\ written run
           = concatenation (recognize_page engine ocr_opts <$> seq 0 k)
        /\ done_message run = None).
Proof.
  intros run notification.
  assert (Hrun : forall k,
    (k <= total)%nat ->
    (forall i, (i < k)%nat -> should_stop i = false) ->
    (k < total -> should_stop k = true)%nat ->
    progress_updates (ui run) = notification <$> seq 0 k
    /\ written run = concatenation (recognize_page engine ocr_opts <$> seq 0 k)
    /\ done_message run
       = if bool_decide (k = total)
         then Some (completed_message total output_file, "OCR Completed")
         else None).
  { intros k Hk Hgo Hstop. subst run.
    unfold _continue_with_text_extraction, scan_to_text.
    rewrite (scan_pages_prefix engine ocr_opts should_stop 0 total k);
      [| exact Hk | intros i Hi; apply Hgo; lia | exact Hstop].
    simpl. split; [| split; reflexivity].
    apply progress_updates_ui. reflexivity. }
  split.
  - intros Hgo. destruct (Hrun total) as (Hui & Hout & Hdone);
      [lia | exact Hgo | lia |].
    rewrite Hui, Hout, Hdone, bool_decide_true by reflexivity.
    rewrite length_fmap, length_seq, <- list_fmap_compose.
    repeat split; try reflexivity.
    rewrite <- fmap_S_seq. apply list_fmap_ext. intros i p _. simpl. lia.
  - intros k Hk Hgo Hstop. destruct (Hrun k) as (Hui & Hout & Hdone);
      [lia | exact Hgo | intros _; exact Hstop |].
    rewrite Hui, Hout, Hdone, bool_decide_false by lia.
    rewrite length_fmap, length_seq. repeat split; reflexivity.
Qed.

(** Three pages, extracted to the end and aborted before the third. *)
Lemma extraction_progress_and_output_witness :
  progress_updates
    (ui (_continue_with_text_extraction Sample.engine 3 OCR.Sample.kept "out.txt"
           Sample.never_stop))
  = [(1, "Scanning page 0 of 3"); (2, "Scanning page 1 of 3");
     (3, "Scanning page 2 of 3")]%nat
  /\ written (_continue_with_text_extraction Sample.engine 3 OCR.Sample.kept
                "out.txt" Sample.stop_at_2)
     = "[page 0][page 1]".
Proof.
  destruct (extraction_progress_and_output Sample.engine 3 OCR.Sample.kept
              "out.txt" Sample.never_stop) as [Hall _].
  destruct (extraction_progress_and_output Sample.engine 3 OCR.Sample.kept
              "out.txt" Sample.stop_at_2) as [_ Habort].
  split.
  - apply Hall. reflexivity.
  - apply (Habort 2%nat); [lia | | reflexivity].
    intros i Hi. unfold Sample.stop_at_2. apply bool_decide_eq_false. lia.
Defined.

End BatchSpec.

(** ** Sessions of the OCR menu *)

Module OCRSessions.

Import OCR Signals OCRSpec.

(** X1. When the resolution gives options and the current page is not in
    the scan cache it leaves, [onScanCurrentPage] dispatches one request,
    after the started signal and the start sound: the image of the current
    page at the options' zoom factor, their language and pipelines, and the
    page number as cookie. The wait dialog holds that request with the page
    closure; the displayed content is not touched. *)
Theorem scan_dispatches_current_page (env : Env) (s : State) (o : OcrOptions) :
  eval (_get_ocr_options env true false) s = Some o ->
  saved_scanned_pages (exec (_get_ocr_options env true false) s)
    !! Some (current_page s) = None ->
  emitted (onScanCurrentPage env) s
  = emitted (_get_ocr_options env true false) s
    ++ [ocr_started; sound_play ocr_start; engine_task (request_of o s)]
  /\ _wait_dlg (exec (onScanCurrentPage env) s)
     = Some (request_of o s, page_callback o)
  /\ content (exec (onScanCurrentPage env) s) = content s
  /\ saved_scanned_pages (exec (onScanCurrentPage env) s)
     = saved_scanned_pages (exec (_get_ocr_options env true false) s).
Proof.
  run. simpl. destruct (stored_options s) as [o'|] eqn:Hs; simpl.
  - intros [= ->] Hpage. rewrite Hpage. trace_simpl. auto.
  - destruct (get_sorted_languages env) as [|l langs]; simpl; [discriminate |].
    destruct (ShowModal env) as [o'|]; simpl; [| discriminate].
    destruct (store_options o'); simpl; intros [= ->] _;
      rewrite lookup_empty; trace_simpl; auto.
Qed.

(** A page not scanned yet is scanned with the stored options. *)
Lemma scan_dispatches_current_page_witness :
  _wait_dlg (exec (onScanCurrentPage Sample.no_languages)
               (exec (navigate Sample.no_languages 7 "") Sample.scanned_kept))
  = Some ({| req_language := Sample.english; req_image := page_image 7 1;
             req_image_processing_pipelines := []; req_cookie := Some 7 |},
          page_callback Sample.kept).
Proof.
  apply (scan_dispatches_current_page Sample.no_languages
           (exec (navigate Sample.no_languages 7 "") Sample.scanned_kept)
           Sample.kept); reflexivity.
Defined.

(** X21. When nothing is stored and the resolution gives no options (no
    language is available, or the options dialog is cancelled),
    [onScanCurrentPage] announces the cancellation after the notice or the
    dialog and dispatches nothing; the displayed content stays, also when
    the page is in the scan cache. The cache is kept when no language is
    available, and is empty once the dialog was shown. *)
Theorem scan_without_options (env : Env) (s : State) :
  stored_options s = None ->
  get_sorted_languages env = [] \/ ShowModal env = None ->
  let s1 := exec (onScanCurrentPage env) s in
  emitted (onScanCurrentPage env) s
  = [match get_sorted_languages env with
     | [] => message_box "No Languages for OCR"
     | langs => options_dialog langs None false
     end;
     speech_announce "Canceled"]
  /\ content s1 = content s
  /\ _wait_dlg s1 = _wait_dlg s
  /\ stored_options s1 = None
  /\ saved_scanned_pages s1
     = match get_sorted_languages env with
       | [] => saved_scanned_pages s
       | _ => ∅
       end.
Proof.
  intros Hs Hnone. destruct s as [so sp fl pg rd ct dir au wd tr].
  destruct env as [langs answer]. simpl in *. subst. run. simpl.
  destruct langs as [|l langs]; simpl.
  - trace_simpl. auto.
  - destruct Hnone as [[=] | ->]. simpl. trace_simpl. auto.
Qed.

Lemma scan_without_options_witness :
  content (exec (onScanCurrentPage Sample.no_languages) Sample.revisited) = ""
  /\ saved_scanned_pages
       (exec (onScanCurrentPage Sample.no_languages) Sample.revisited)
     = saved_scanned_pages Sample.revisited.
Proof.
  destruct (scan_without_options Sample.no_languages Sample.revisited)
    as (_ & Hcontent & _ & _ & Hcache); [reflexivity | left; reflexivity |].
  split; [exact Hcontent | exact Hcache].
Defined.

(** *** The states a scan and a delivery lead to *)

Lemma scan_with_stored_options (env : Env) (s : State) (o : OcrOptions) :
  stored_options s = Some o ->
  exec (onScanCurrentPage env) s
  = match saved_scanned_pages s !! Some (current_page s) with
    | Some text => with_content text (with_ocr_cancelled false s)
    | None =>
        with_wait_dlg (Some (request_of o s, page_callback o))
          (with_trace
             (trace s ++ [ocr_started; sound_play ocr_start;
                          engine_task (request_of o s)])
             (with_ocr_cancelled false s))
    end.
Proof.
  intros Hs. run. simpl. rewrite Hs. simpl.
  destruct (saved_scanned_pages s !! Some (current_page s)); simpl;
    rewrite <- ?app_assoc; reflexivity.
Qed.

Lemma deliver_to_current_page (o : OcrOptions) (r : OcrResult) (s : State) :
  _ocr_cancelled s = false ->
  cookie r = Some (current_page s) ->
  exec (_process_ocr_result (run_callback (page_callback o)) (task_returns r)) s
  = with_trace (trace s ++ finished)
      (with_text_direction (is_rtl (language o))
         (with_content (recognized_text r)
            (with_saved_scanned_pages
               (<[cookie r := recognized_text r]> (saved_scanned_pages s)) s))).
Proof.
  intros Hc Hr. run. simpl. rewrite Hc. simpl.
  rewrite decide_True by exact Hr. simpl. rewrite <- !app_assoc. reflexivity.
Qed.

Lemma deliver_to_other_page (o : OcrOptions) (r : OcrResult) (s : State) :
  _ocr_cancelled s = false ->
  cookie r <> Some (current_page s) ->
  exec (_process_ocr_result (run_callback (page_callback o)) (task_returns r)) s
  = with_trace (trace s ++ finished)
      (with_saved_scanned_pages
         (<[cookie r := recognized_text r]> (saved_scanned_pages s)) s).
Proof.
  intros Hc Hr. run. simpl. rewrite Hc. simpl.
  rewrite decide_False by exact Hr. simpl. rewrite <- !app_assoc. reflexivity.
Qed.

(** X2. With options stored, a scan of the current page followed by the
    delivery of its result, whose cookie is the page, displays the text in
    the direction of the options' language and caches it; a second scan of
    the page then changes nothing and emits nothing. *)
Theorem scan_result_scan_round_trip (env env' : Env) (s : State) (o : OcrOptions) (r : OcrResult) :
  stored_options s = Some o ->
  cookie r = Some (current_page s) ->
  let s1 := exec (onScanCurrentPage env) s in
  let s2 :=
    exec (_process_ocr_result (run_callback (page_callback o)) (task_returns r)) s1 in
  content s2 = recognized_text r
  /\ text_direction_rtl s2 = is_rtl (language o)
  /\ saved_scanned_pages s2 !! Some (current_page s) = Some (recognized_text r)
  /\ exec (onScanCurrentPage env') s2 = s2
  /\ emitted (onScanCurrentPage env') s2 = [].
Proof.
  intros Hs Hr s1 s2.
  assert (H1 : _ocr_cancelled s1 = false) by apply scan_current_page_clears_flag.
  assert (Hpage : current_page s1 = current_page s).
  { subst s1. rewrite (scan_with_stored_options env s o Hs).
    destruct (saved_scanned_pages s !! Some (current_page s)); reflexivity. }
  assert (Hstored : stored_options s1 = Some o).
  { subst s1. rewrite (scan_with_stored_options env s o Hs).
    destruct (saved_scanned_pages s !! Some (current_page s)); exact Hs. }
  assert (H2 : s2 = with_trace (trace s1 ++ finished)
      (with_text_direction (is_rtl (language o))
         (with_content (recognized_text r)
            (with_saved_scanned_pages
               (<[cookie r := recognized_text r]> (saved_scanned_pages s1)) s1)))).
  { apply deliver_to_current_page; [exact H1 | rewrite Hpage; exact Hr]. }
  assert (Hlookup : saved_scanned_pages s2 !! Some (current_page s2)
                    = Some (recognized_text r)).
  { rewrite H2. simpl. rewrite Hpage, Hr. apply lookup_insert_eq. }
  assert (Hscan : exec (onScanCurrentPage env') s2 = s2).
  { rewrite (scan_with_stored_options env' s2 o) by (rewrite H2; exact Hstored).
    rewrite Hlookup. rewrite H2. clear -H1. clearbody s1.
    destruct s1; simpl in *. rewrite H1. reflexivity. }
  repeat split.
  - rewrite H2. reflexivity.
  - rewrite H2. reflexivity.
  - rewrite <- Hlookup. rewrite H2. simpl. rewrite Hpage. reflexivity.
  - exact Hscan.
  - unfold emitted. rewrite Hscan. apply drop_all.
Qed.

Lemma scan_result_scan_round_trip_witness :
  content
    (exec (_process_ocr_result (run_callback (page_callback Sample.kept))
             (task_returns Sample.page4))
       (exec (onScanCurrentPage Sample.answers_kept)
          (exec (navigate Sample.no_languages 4 "") Sample.scanned_kept)))
  = "world".
Proof.
  apply (scan_result_scan_round_trip Sample.answers_kept Sample.answers_kept
           (exec (navigate Sample.no_languages 4 "") Sample.scanned_kept)
           Sample.kept Sample.page4); reflexivity.
Defined.

Lemma navigate_without_auto_scan (env : Env) (page : Z) (text : string) (s : State) :
  auto_scan_checked s = false ->
  exec (navigate env page text) s = with_content text (with_current_page page s).
Proof. intros Ha. run. simpl. rewrite Ha. reflexivity. Qed.

(** X3. With options stored and automatic OCR off: a page is scanned, the
    reader turns to another page before the result arrives, and the result
    is delivered there. The page then displayed keeps its content and
    direction; and back on the scanned page, a scan displays the recognised
    text without a new request. *)
Theorem late_result_is_shown_on_return
    (env env' : Env) (s : State) (o : OcrOptions) (r : OcrResult)
    (other : Z) (other_text own_text : string) :
  stored_options s = Some o ->
  auto_scan_checked s = false ->
  cookie r = Some (current_page s) ->
  other <> current_page s ->
  let s1 := exec (navigate env other other_text) (exec (onScanCurrentPage env) s) in
  let s2 :=
    exec (_process_ocr_result (run_callback (page_callback o)) (task_returns r)) s1 in
  let s3 := exec (navigate env (current_page s) own_text) s2 in
  content s2 = other_text
  /\ text_direction_rtl s2 = text_direction_rtl s
  /\ content (exec (onScanCurrentPage env') s3) = recognized_text r
  /\ emitted (onScanCurrentPage env') s3 = [].
Proof.
  intros Hs Ha Hr Hother s1 s2 s3.
  pose proof (scan_with_stored_options env s o Hs) as H0.
  set (s0 := exec (onScanCurrentPage env) s) in *.
  assert (H0' : stored_options s0 = Some o /\ auto_scan_checked s0 = false
                /\ _ocr_cancelled s0 = false
                /\ text_direction_rtl s0 = text_direction_rtl s).
  { rewrite H0. destruct (saved_scanned_pages s !! Some (current_page s));
      simpl; auto. }
  destruct H0' as (Hs0 & Ha0 & Hc0 & Hd0). clearbody s0. clear H0.
  assert (H1 : s1 = with_content other_text (with_current_page other s0))
    by (apply navigate_without_auto_scan, Ha0).
  assert (H2 : s2 = with_trace (trace s1 ++ finished)
                      (with_saved_scanned_pages
                         (<[cookie r := recognized_text r]> (saved_scanned_pages s1))
                         s1)).
  { apply deliver_to_other_page; rewrite H1; simpl; [exact Hc0 |].
    rewrite Hr. congruence. }
  assert (H3 : s3 = with_content own_text (with_current_page (current_page s) s2)).
  { apply navigate_without_auto_scan. rewrite H2, H1. exact Ha0. }
  assert (Hscan : exec (onScanCurrentPage env') s3
                  = with_content (recognized_text r) (with_ocr_cancelled false s3)).
  { rewrite (scan_with_stored_options env' s3 o)
      by (rewrite H3, H2, H1; exact Hs0).
    replace (saved_scanned_pages s3 !! Some (current_page s3))
      with (Some (recognized_text r)); [reflexivity |].
    rewrite H3, H2. simpl. rewrite Hr. symmetry. apply lookup_insert_eq. }
  repeat split.
  - rewrite H2, H1. reflexivity.
  - rewrite H2, H1. exact Hd0.
  - rewrite Hscan. reflexivity.
  - unfold emitted. rewrite Hscan. simpl. apply drop_all.
Qed.

Lemma late_result_is_shown_on_return_witness :
  content
    (exec (_process_ocr_result (run_callback (page_callback Sample.kept))
             (task_returns Sample.page4))
       (exec (navigate Sample.no_languages 5 "five")
          (exec (onScanCurrentPage Sample.no_languages)
             (exec (navigate Sample.no_languages 4 "") Sample.scanned_kept))))
  = "five".
Proof.
  apply (late_result_is_shown_on_return Sample.no_languages Sample.no_languages
           (exec (navigate Sample.no_languages 4 "") Sample.scanned_kept)
           Sample.kept Sample.page4 5 "five" "");
    [reflexivity | reflexivity | reflexivity | discriminate].
Defined.

(** *** Options *)

(** X4. Options that a resolution returns with their [store_options] flag
    set are what every later resolution from the stored options returns,
    whatever the engine and the user would answer, without a dialog or a
    notice and without a change of state. Options returned without the flag
    are not kept: in a session, the next resolution asks again, with a
    dialog that is not filled in from them. *)
Theorem kept_options_are_reused
    (env env' : Env) (from_cache force_save force_save' : bool) (s : State)
    (o : OcrOptions) :
  eval (_get_ocr_options env from_cache force_save) s = Some o ->
  let s1 := exec (_get_ocr_options env from_cache force_save) s in
  (store_options o = true ->
   _get_ocr_options env' true force_save' s1 = (Some o, s1))
  /\ (store_options o = false -> reachable s ->
      emitted (_get_ocr_options env' true force_save') s1
      = match get_sorted_languages env' with
        | [] => [message_box "No Languages for OCR"]
        | langs => [options_dialog langs None force_save']
        end).
Proof.
  intros Ho s1.
  assert (Hslot : (store_options o = true -> stored_options s1 = Some o)
                  /\ (store_options o = false -> reachable s ->
                      stored_options s1 = None)).
  { subst s1. revert Ho. run. simpl.
    destruct from_cache; simpl.
    - destruct (stored_options s) as [o'|] eqn:Hs; simpl.
      + intros [= ->]. split; [intros _; exact Hs |].
        intros Hfalse Hr%reachable_stored_options_wf.
        rewrite (Hr o Hs) in Hfalse. discriminate.
      + destruct (get_sorted_languages env); simpl; [discriminate |].
        destruct (ShowModal env) as [o'|]; simpl; [| discriminate].
        destruct (store_options o') eqn:Hso; simpl; intros [= ->];
          split; congruence.
    - destruct (get_sorted_languages env); simpl; [discriminate |].
      destruct (ShowModal env) as [o'|]; simpl; [| discriminate].
      destruct (store_options o') eqn:Hso; simpl; intros [= ->];
        split; congruence. }
  clearbody s1. destruct Hslot as [Hkept Hnot]. split.
  - intros Ht. specialize (Hkept Ht). run. simpl. rewrite Hkept. reflexivity.
  - intros Hf Hr. specialize (Hnot Hf Hr). run. simpl. rewrite Hnot. simpl.
    destruct (get_sorted_languages env'); simpl.
    + trace_simpl. reflexivity.
    + destruct (ShowModal env') as [o'|]; simpl;
        try destruct (store_options o'); trace_simpl; reflexivity.
Qed.

Lemma kept_options_are_reused_witness :
  _get_ocr_options Sample.no_languages true false
    (exec (_get_ocr_options Sample.answers_kept false true) (initial 1 "one"))
  = (Some Sample.kept,
     exec (_get_ocr_options Sample.answers_kept false true) (initial 1 "one")).
Proof.
  destruct (kept_options_are_reused Sample.answers_kept Sample.no_languages
              false true false (initial 1 "one") Sample.kept eq_refl)
    as [Hkept _].
  exact (Hkept eq_refl).
Defined.

(** X5. [onChangeOCROptions] with a language available shows the options
    dialog filled in from the options stored before, and that is all it
    emits. Whatever the answer, the scan cache is empty afterwards, and the
    stored options are the answer if it has [store_options] set and nothing
    otherwise: a cancelled dialog forgets the options that were stored. The
    displayed content, the page and the cancellation flag are not touched. *)
Theorem change_options_resets (env : Env) (s : State) :
  get_sorted_languages env <> [] ->
  let s1 := exec (onChangeOCROptions env) s in
  emitted (onChangeOCROptions env) s
  = [options_dialog (get_sorted_languages env) (stored_options s) false]
  /\ saved_scanned_pages s1 = ∅
  /\ stored_options s1
     = match ShowModal env with
       | Some o => if store_options o then Some o else None
       | None => None
       end
  /\ (ShowModal env = None -> stored_options s1 = None)
  /\ content s1 = content s
  /\ current_page s1 = current_page s
  /\ _ocr_cancelled s1 = _ocr_cancelled s.
Proof.
  intros Hlangs. run. simpl.
  destruct (get_sorted_languages env) as [|l langs]; [congruence |]. simpl.
  destruct (ShowModal env) as [o|]; simpl; try destruct (store_options o);
    trace_simpl; repeat split; intros; congruence.
Qed.

Lemma change_options_resets_witness :
  stored_options
    (exec (onChangeOCROptions
             {| get_sorted_languages := [Sample.english]; ShowModal := None |})
       Sample.scanned_kept)
  = None.
Proof.
  destruct (change_options_resets
              {| get_sorted_languages := [Sample.english]; ShowModal := None |}
              Sample.scanned_kept) as (_ & _ & _ & Hcancel & _).
  - discriminate.
  - exact (Hcancel eq_refl).
Defined.

(** *** Automatic OCR *)

(** X6. With options stored and text displayed, [onAutoScanPages] only
    announces whether automatic OCR is now enabled or disabled, by the state
    of the check item; it shows no dialog, dispatches nothing and changes
    nothing else. *)
Theorem auto_scan_only_announces (env env' : Env) (s : State) (o : OcrOptions) :
  stored_options s = Some o ->
  content s <> "" ->
  exec (onAutoScanPages env env') s
  = with_trace
      (trace s
       ++ [speech_announce
             (if auto_scan_checked s then "Automatic OCR is enabled"
              else "Automatic OCR is disabled")]) s.
Proof.
  intros Hs Hc. run. simpl. rewrite Hs. simpl.
  destruct (auto_scan_checked s); simpl; rewrite decide_False by exact Hc;
    reflexivity.
Qed.

Lemma auto_scan_only_announces_witness :
  exec (onAutoScanPages Sample.no_languages Sample.no_languages) Sample.scanned_kept
  = with_trace
      (trace Sample.scanned_kept ++ [speech_announce "Automatic OCR is disabled"])
      Sample.scanned_kept.
Proof.
  apply (auto_scan_only_announces Sample.no_languages Sample.no_languages
           Sample.scanned_kept Sample.kept); [reflexivity | discriminate].
Defined.

(** X7. With nothing stored and nothing displayed, when the options dialog
    that [onAutoScanPages] shows is cancelled, the handler still announces
    the state of the check item and goes on to scan the current page, which
    shows the options dialog a second time. *)
Theorem auto_scan_asks_twice (env env' : Env) (s : State) :
  stored_options s = None ->
  content s = "" ->
  get_sorted_languages env <> [] ->
  ShowModal env = None ->
  get_sorted_languages env' <> [] ->
  take 3 (emitted (onAutoScanPages env env') s)
  = [options_dialog (get_sorted_languages env) None true;
     speech_announce
       (if auto_scan_checked s then "Automatic OCR is enabled"
        else "Automatic OCR is disabled");
     options_dialog (get_sorted_languages env') None false]
  /\ count is_options_dialog (emitted (onAutoScanPages env env') s) = 2%nat.
Proof.
  intros Hs Hc Hl Hm Hl'.
  destruct s as [so sp fl pg rd ct dir au wd tr]. simpl in *. subst.
  destruct env as [[|l langs] answer]; [simpl in *; congruence |].
  destruct env' as [[|l' langs'] answer']; [simpl in *; congruence |].
  simpl in *. subst. run. simpl.
  destruct au; simpl; destruct answer' as [o|]; simpl;
    try destruct (store_options o); simpl; rewrite ?lookup_empty;
    trace_simpl; split; reflexivity.
Qed.

Lemma auto_scan_asks_twice_witness :
  count is_options_dialog
    (emitted (onAutoScanPages
                {| get_sorted_languages := [Sample.english]; ShowModal := None |}
                Sample.answers_kept)
       (initial 1 ""))
  = 2%nat.
Proof.
  apply (auto_scan_asks_twice
           {| get_sorted_languages := [Sample.english]; ShowModal := None |}
           Sample.answers_kept (initial 1 ""));
    try reflexivity; discriminate.
Defined.

(** X8. While automatic OCR is checked and options are stored, the
    page-changed handler shows the cached text of the new page if it was
    scanned, and otherwise dispatches one request for it and leaves the
    content as it is; in both cases the menu answers that reading must not
    go to the next page by itself. While it is unchecked the handler does
    nothing, and the menu lets reading go on. *)
Theorem page_change_under_auto_scan (env : Env) (s : State) (o : OcrOptions) :
  stored_options s = Some o ->
  let s1 := exec (_on_reader_page_changed env) s in
  (auto_scan_checked s = true ->
   eval on_should_auto_navigate_to_next_page s1 = false
   /\ match saved_scanned_pages s !! Some (current_page s) with
      | Some text =>
          content s1 = text /\ emitted (_on_reader_page_changed env) s = []
      | None =>
          content s1 = content s
          /\ emitted (_on_reader_page_changed env) s
             = [ocr_started; sound_play ocr_start; engine_task (request_of o s)]
      end)
  /\ (auto_scan_checked s = false ->
      s1 = s /\ eval on_should_auto_navigate_to_next_page s1 = true).
Proof.
  intros Hs s1. subst s1.
  destruct s as [so sp fl pg rd ct dir au wd tr]. simpl in *. subst.
  split; intros ->; run; simpl.
  - destruct (sp !! Some pg); simpl; trace_simpl; auto.
  - auto.
Qed.

Lemma page_change_under_auto_scan_witness :
  exec (_on_reader_page_changed Sample.no_languages) Sample.scanned_kept
  = Sample.scanned_kept.
Proof.
  destruct (page_change_under_auto_scan Sample.no_languages Sample.scanned_kept
              Sample.kept eq_refl) as [_ Hoff].
  exact (proj1 (Hoff eq_refl)).
Defined.

(** *** The other menu items *)

(** X9. [onScanToTextFile] starts an extraction exactly when a language is
    available, the options dialog is answered and a non-empty path is chosen;
    the extraction gets the answered options and that path. It always asks
    (the stored options only fill in the dialog), always leaves the scan
    cache empty, and never dispatches a request for a single page. *)
Theorem scan_to_text_file_starts (env : Env) (save_as : option string) (s : State) :
  let m := onScanToTextFile env save_as in
  (forall o f,
     eval m s = Some (o, f)
     <-> get_sorted_languages env <> [] /\ ShowModal env = Some o
         /\ save_as = Some f /\ f <> "")
  /\ emitted m s
     = match get_sorted_languages env with
       | [] => [message_box "No Languages for OCR"]
       | langs => [options_dialog langs (stored_options s) true]
       end
  /\ saved_scanned_pages (exec m s) = ∅
  /\ _wait_dlg (exec m s) = _wait_dlg s
  /\ content (exec m s) = content s.
Proof.
  destruct s as [so sp fl pg rd ct dir au wd tr].
  destruct env as [langs answer].
  assert (Hpath : save_as = None \/ save_as = Some ""
                  \/ exists f, save_as = Some f /\ f <> "").
  { destruct save_as as [f|]; [| auto].
    destruct (decide (f = "")) as [-> | Hne]; eauto. }
  run. simpl. destruct langs as [|l langs]; simpl.
  { trace_simpl. repeat split; try reflexivity; try discriminate.
    intros (H & _). congruence. }
  destruct answer as [o'|]; simpl.
  2:{ trace_simpl. repeat split; try reflexivity; try discriminate.
      intros (_ & H & _). discriminate. }
  destruct Hpath as [-> | [-> | (f' & -> & Hne)]];
    destruct (store_options o'); simpl; rewrite ?decide_False by exact Hne;
    simpl; trace_simpl; (split; [| auto]); intros o f; split;
    try discriminate;
    try (intros (_ & _ & [=] & _); fail);
    try (intros (_ & _ & [= <-] & Hf); congruence);
    try (intros [= -> ->]; auto; fail);
    try (intros (_ & [= ->] & [= ->] & _); reflexivity).
Qed.

Lemma scan_to_text_file_starts_witness :
  eval (onScanToTextFile Sample.answers_kept (Some "out.txt")) Sample.scanned_once
  = Some (Sample.kept, "out.txt").
Proof.
  destruct (scan_to_text_file_starts Sample.answers_kept (Some "out.txt")
              Sample.scanned_once) as [Hiff _].
  apply Hiff. repeat split; discriminate.
Defined.

(** X10. [onScanImageFile] does nothing at all when the file dialog is
    closed without a choice, gives an empty path or names what is not a
    file. When the image cannot be loaded it shows the notice and does
    nothing else: no dialog, no request. And in every case it leaves the
    stored options, the displayed content and the page as they are. *)
Theorem scan_image_file_without_image (env : Env) (choice : ImageChoice) (s : State) :
  let s1 := exec (onScanImageFile env choice) s in
  (chosen_path choice = None \/ chosen_path choice = Some ""
   \/ isfile choice = false -> s1 = s)
  /\ (forall filename,
        chosen_path choice = Some filename -> filename <> "" ->
        isfile choice = true -> loaded_size choice = None ->
        s1 = with_trace (trace s ++ [message_box "Could not load image file"]) s)
  /\ stored_options s1 = stored_options s
  /\ content s1 = content s
  /\ current_page s1 = current_page s.
Proof.
  destruct s as [so sp fl pg rd ct dir au wd tr].
  destruct choice as [path file size]. destruct env as [langs answer].
  assert (Hpath : path = None \/ path = Some ""
                  \/ exists f, path = Some f /\ f <> "").
  { destruct path as [f|]; [| auto].
    destruct (decide (f = "")) as [-> | Hne]; eauto. }
  run. simpl.
  destruct Hpath as [-> | [-> | (f & -> & Hne)]]; simpl;
    rewrite ?decide_False by exact Hne;
    try (destruct file; simpl; [destruct size as [[w h]|]; simpl;
           [destruct langs as [|l langs]; simpl;
              [| destruct answer as [o|]; simpl;
                 [destruct (_ || _); simpl |]] |] |]);
    (repeat split; auto; intros;
     repeat match goal with H : _ \/ _ |- _ => destruct H end;
     simplify_eq; congruence).
Qed.

Lemma scan_image_file_without_image_witness :
  exec (onScanImageFile Sample.answers_kept
          {| chosen_path := Some "scan.png"; isfile := true; loaded_size := None |})
    Sample.scanned_kept
  = with_trace
      (trace Sample.scanned_kept ++ [message_box "Could not load image file"])
      Sample.scanned_kept.
Proof.
  destruct (scan_image_file_without_image Sample.answers_kept
              {| chosen_path := Some "scan.png"; isfile := true;
                 loaded_size := None |} Sample.scanned_kept)
    as (_ & Hload & _).
  apply (Hload "scan.png"); try reflexivity. discriminate.
Defined.

(** X11. When an image file is chosen and loads, a language is available
    and the options dialog is answered, [onScanImageFile] shows the dialog,
    not filled in, and resizes the image by the options' zoom factor in both
    dimensions. When the resized width and height are at least 1 it
    dispatches one request: the resized image, the options' language and
    pipelines, and no cookie; the wait dialog holds it with the image
    closure, and the handler returns. Otherwise the resize raises
    [ValueError], which leaves the handler: only the dialog was shown,
    nothing is dispatched and the wait dialog is as it was. In both cases
    the answered options are not stored, whatever their [store_options]
    flag, and the scan cache of the document is empty afterwards. *)
Theorem scan_image_file_dispatches
    (env : Env) (choice : ImageChoice) (s : State) (filename : string)
    (width height : Z) (o : OcrOptions) :
  chosen_path choice = Some filename -> filename <> "" ->
  isfile choice = true -> loaded_size choice = Some (width, height) ->
  get_sorted_languages env <> [] -> ShowModal env = Some o ->
  let request :=
    {| req_language := language o;
       req_image := file_image filename (zoom_factor o * width) (zoom_factor o * height);
       req_image_processing_pipelines := image_processing_pipelines o;
       req_cookie := None |} in
  let s1 := exec (onScanImageFile env choice) s in
  (1 <= zoom_factor o * width -> 1 <= zoom_factor o * height ->
   eval (onScanImageFile env choice) s = returned
   /\ emitted (onScanImageFile env choice) s
      = [options_dialog (get_sorted_languages env) None true;
         ocr_started; sound_play ocr_start; engine_task request]
   /\ _wait_dlg s1 = Some (request, image_callback o))
  /\ (zoom_factor o * width < 1 \/ zoom_factor o * height < 1 ->
      eval (onScanImageFile env choice) s = propagated "ValueError"
      /\ emitted (onScanImageFile env choice) s
         = [options_dialog (get_sorted_languages env) None true]
      /\ _wait_dlg s1 = _wait_dlg s)
  /\ stored_options s1 = stored_options s
  /\ saved_scanned_pages s1 = ∅.
Proof.
  intros Hpath Hne Hfile Hsize Hlangs Hanswer.
  destruct s as [so sp fl pg rd ct dir au wd tr].
  destruct choice as [path file size]. destruct env as [langs answer].
  simpl in *. subst. run. simpl. rewrite decide_False by exact Hne. simpl.
  destruct langs as [|l langs]; [congruence |]. simpl.
  destruct (zoom_factor o * width <? 1)%Z eqn:Hw;
    destruct (zoom_factor o * height <? 1)%Z eqn:Hh; simpl; trace_simpl;
    repeat split; auto; intros; lia.
Qed.

Lemma scan_image_file_dispatches_witness :
  saved_scanned_pages
    (exec (onScanImageFile Sample.answers_once
             {| chosen_path := Some "scan.png"; isfile := true;
                loaded_size := Some (640, 480) |})
       Sample.scanned_kept)
  = ∅
  /\ stored_options
       (exec (onScanImageFile Sample.answers_once
                {| chosen_path := Some "scan.png"; isfile := true;
                   loaded_size := Some (640, 480) |})
          Sample.scanned_kept)
     = Some Sample.kept
  /\ eval (onScanImageFile Sample.answers_once
             {| chosen_path := Some "scan.png"; isfile := true;
                loaded_size := Some (640, 480) |})
       Sample.scanned_kept
     = returned.
Proof.
  destruct (scan_image_file_dispatches Sample.answers_once
              {| chosen_path := Some "scan.png"; isfile := true;
                 loaded_size := Some (640, 480) |}
              Sample.scanned_kept "scan.png" 640 480 Sample.once)
    as (Hdispatch & _ & Hstored & Hcache); try reflexivity; try discriminate.
  split; [exact Hcache | split; [exact Hstored |]].
  apply Hdispatch; vm_compute; discriminate.
Defined.



(** *** The end of a document *)

(** X13. After [_on_reader_unloaded] nothing is stored, the scan cache is
    empty and automatic OCR is unchecked. So a page change triggers no scan,
    and a scan of the current page starts by asking: it shows the notice
    that no language is available, or the options dialog, not filled in. A
    text cached before the unload is not displayed, and when the dialog is
    cancelled or no language is available nothing is dispatched. *)
Theorem unload_forgets_the_session (s : State) :
  let s1 := exec _on_reader_unloaded s in
  stored_options s1 = None
  /\ saved_scanned_pages s1 = ∅
  /\ auto_scan_checked s1 = false
  /\ (forall env, exec (_on_reader_page_changed env) s1 = s1)
  /\ (forall env,
        head (emitted (onScanCurrentPage env) s1)
        = Some match get_sorted_languages env with
               | [] => message_box "No Languages for OCR"
               | langs => options_dialog langs None false
               end
        /\ content (exec (onScanCurrentPage env) s1) = content s)
  /\ (forall env,
        get_sorted_languages env = [] \/ ShowModal env = None ->
        existsb is_engine_task (emitted (onScanCurrentPage env) s1) = false).
Proof.
  destruct s as [so sp fl pg rd ct dir au wd tr]. run. simpl.
  repeat split.
  - destruct env as [[|l langs] [o|]]; simpl; try destruct (store_options o);
      simpl; rewrite ?lookup_empty; trace_simpl; reflexivity.
  - destruct env as [[|l langs] [o|]]; simpl; try destruct (store_options o);
      simpl; rewrite ?lookup_empty; reflexivity.
  - destruct env as [[|l langs] [o|]]; simpl; intros [[=] | [=]];
      trace_simpl; reflexivity.
Qed.

Lemma unload_forgets_the_session_witness :
  existsb is_engine_task
    (emitted (onScanCurrentPage Sample.no_languages)
       (exec _on_reader_unloaded Sample.scanned_kept))
  = false.
Proof.
  destruct (unload_forgets_the_session Sample.scanned_kept)
    as (_ & _ & _ & _ & _ & Hnone).
  apply Hnone. left. reflexivity.
Defined.

End OCRSessions.

(** ** More on the Word document converter *)

Module WordFiles.

Import Word WordSpec.

(** The four ways a conversion ends. *)
Lemma convert_cases lib filename d :
  (files d !! filename = None
   /\ get_converted_filename lib filename d
      = (raises (FileNotFoundError filename), d))
  \/ (exists data,
        files d !! filename = Some data
        /\ is_Some (files d !! target_of lib data)
        /\ get_converted_filename lib filename d = (returns (target_of lib data), d))
  \/ (exists data html,
        files d !! filename = Some data
        /\ files d !! target_of lib data = None
        /\ converted lib filename data = returns html
        /\ get_converted_filename lib filename d
           = (returns (target_of lib data),
              written filename (target_of lib data) html d))
  \/ (exists data e,
        files d !! filename = Some data
        /\ files d !! target_of lib data = None
        /\ converted lib filename data = raises e
        /\ get_converted_filename lib filename d = (raises e, called filename d)).
Proof.
  rewrite convert_outcome.
  destruct (files d !! filename) as [data|] eqn:Hfile; [| auto].
  destruct (files d !! target_of lib data) as [text|] eqn:Ht.
  - right; left. exists data. rewrite Ht. eauto.
  - destruct (converted lib filename data) as [html | e] eqn:Hconv.
    + right; right; left. exists data, html. rewrite Hconv. auto.
    + right; right; right. exists data, e. rewrite Hconv. auto.
Qed.

(** A conversion only adds to the disk. *)
Lemma convert_grows lib filename d :
  files d ⊆ files (snd (get_converted_filename lib filename d)).
Proof.
  destruct (convert_cases lib filename d)
    as [[_ ->] | [(data & _ & _ & ->) | [(data & html & _ & Ht & _ & ->)
       | (data & e & _ & _ & _ & ->)]]]; simpl;
    [reflexivity | reflexivity | apply insert_subseteq, Ht | reflexivity].
Qed.

(** X15. A conversion never changes or removes a file that is on the disk,
    the Word file included: every file is afterwards what it was before. It
    adds at most the converted file, and calls the external converter at
    most once, on the file it was given. *)
Theorem conversion_keeps_every_file (lib : Library) (filename : string) (d : Disk) :
  let d1 := snd (get_converted_filename lib filename d) in
  files d ⊆ files d1
  /\ (forall name text, files d !! name = Some text -> files d1 !! name = Some text)
  /\ (forall name,
        is_Some (files d1 !! name) ->
        is_Some (files d !! name)
        \/ exists data, files d !! filename = Some data /\ name = target_of lib data)
  /\ (converter_calls d1 = converter_calls d
      \/ converter_calls d1 = converter_calls d ++ [filename]).
Proof.
  intros d1.
  assert (Hsub : files d ⊆ files d1
                 /\ (forall name, is_Some (files d1 !! name) ->
                       is_Some (files d !! name)
                       \/ exists data, files d !! filename = Some data
                                       /\ name = target_of lib data)
                 /\ (converter_calls d1 = converter_calls d
                     \/ converter_calls d1 = converter_calls d ++ [filename])).
  { subst d1.
    destruct (convert_cases lib filename d)
      as [[_ ->] | [(data & _ & _ & ->) | [(data & html & Hfile & Ht & _ & ->)
         | (data & e & _ & _ & _ & ->)]]]; simpl.
    - auto.
    - auto.
    - split; [apply insert_subseteq, Ht | split; [| auto]].
      intros name Hname.
      destruct (decide (name = target_of lib data)) as [-> | Hne]; [eauto |].
      rewrite lookup_insert_ne in Hname by congruence. auto.
    - auto. }
  destruct Hsub as (Hsub & Hnew & Hcalls). repeat split; try assumption.
  intros name text Hname. exact (lookup_weaken _ _ _ _ Hname Hsub).
Qed.

Lemma conversion_keeps_every_file_witness :
  files (snd (get_converted_filename Sample.lib "/docs/report.docx" Sample.disk))
    !! "/docs/report.docx"
  = Some Sample.hello_docx.
Proof.
  destruct (conversion_keeps_every_file Sample.lib "/docs/report.docx" Sample.disk)
    as (_ & Hkeep & _).
  apply Hkeep. reflexivity.
Defined.

(** X16. When the Word file is not on the disk, the conversion raises
    [FileNotFoundError] for it, and so does [read], in place of
    [ChangeDocument]; the disk is left as it was and the external converter
    is not called. *)
Theorem missing_file_is_an_error (lib : Library) (self : WordDocument) (d : Disk) :
  files d !! get_file_system_path self = None ->
  get_converted_filename lib (get_file_system_path self) d
  = (raises (FileNotFoundError (get_file_system_path self)), d)
  /\ read lib self d
     = (raises (FileNotFoundError (get_file_system_path self)), d).
Proof.
  intros Hfile. split; [apply convert_missing, Hfile |].
  unfold read. cbv [mbind W_bind].
  rewrite (convert_missing lib _ d Hfile). reflexivity.
Qed.

Lemma missing_file_is_an_error_witness :
  read Sample.lib
    {| uri := {| uri_format := "docx"; uri_path := "/docs/gone.docx" |} |}
    Sample.disk
  = (raises (FileNotFoundError "/docs/gone.docx"), Sample.disk).
Proof.
  apply (missing_file_is_an_error Sample.lib
           {| uri := {| uri_format := "docx"; uri_path := "/docs/gone.docx" |} |}
           Sample.disk).
  reflexivity.
Defined.

(** X17. Of two files with the same bytes and no converted file yet, the
    one converted first decides the text of the converted file, when its
    conversion returns: the HTML is made from its path, the second
    conversion returns the same file without calling the converter, and the
    text stays the first one's. When the first conversion raises, nothing is
    written and the second conversion calls the converter itself. *)
Theorem first_conversion_decides_the_text
    (lib : Library) (d : Disk) (first second data : string) :
  files d !! first = Some data ->
  files d !! second = Some data ->
  files d !! target_of lib data = None ->
  let d1 := snd (get_converted_filename lib first d) in
  let d2 := snd (get_converted_filename lib second d1) in
  (forall html,
     converted lib first data = returns html ->
     fst (get_converted_filename lib first d) = returns (target_of lib data)
     /\ fst (get_converted_filename lib second d1) = returns (target_of lib data)
     /\ files d2 = <[target_of lib data := html]> (files d)
     /\ converter_calls d2 = converter_calls d ++ [first])
  /\ (forall e,
        converted lib first data = raises e ->
        fst (get_converted_filename lib first d) = raises e
        /\ files d1 = files d
        /\ get_converted_filename lib second d1
           = match converted lib second data with
             | returns html =>
                 (returns (target_of lib data),
                  written second (target_of lib data) html d1)
             | raises e' => (raises e', called second d1)
             end
        /\ converter_calls d2 = converter_calls d ++ [first; second]).
Proof.
  intros Hfirst Hsecond Ht d1 d2. subst d2 d1.
  rewrite (convert_fresh lib first data d Hfirst Ht). split.
  - intros html ->. simpl.
    rewrite (convert_cached lib second data).
    + simpl. auto.
    + simpl. rewrite lookup_insert_ne; [exact Hsecond |].
      intros <-. congruence.
    + simpl. rewrite lookup_insert_eq. eauto.
  - intros e ->. simpl.
    rewrite (convert_fresh lib second data (called first d) Hsecond Ht).
    repeat split.
    destruct (converted lib second data) as [html | e']; simpl;
      rewrite <- app_assoc; reflexivity.
Qed.

(** The report, then its copy. *)
Lemma first_conversion_decides_the_text_witness :
  files
    (snd (get_converted_filename Sample.lib "/docs/copy.docx"
            (snd (get_converted_filename Sample.lib "/docs/report.docx"
                    Sample.disk))))
  = <[target_of Sample.lib Sample.hello_docx
      := String.concat NEWLINE
           [ "<!DOCTYPE html>";
             "<html>";
             "<head>";
             "<meta charset=" +:+ dquote +:+ "utf-8" +:+ dquote +:+ "/>";
             "<meta name=" +:+ dquote +:+ "author" +:+ dquote +:+ " content="
               +:+ dquote +:+ "python-docx" +:+ dquote +:+ "/>";
             "<title>report</title>";
             "</head>";
             "<p>Hello</p>";
             "</html>" ]]> (files Sample.disk).
Proof.
  assert (Hnone : files Sample.disk !! target_of Sample.lib Sample.hello_docx = None)
    by (vm_compute; reflexivity).
  destruct (first_conversion_decides_the_text Sample.lib Sample.disk
              "/docs/report.docx" "/docs/copy.docx" Sample.hello_docx
              eq_refl eq_refl Hnone) as [Hok _].
  refine (proj1 (proj2 (proj2 (Hok _ _)))).
  vm_compute. reflexivity.
Defined.

(** The files a conversion leaves, from the bytes of the file converted. *)
Lemma files_after_conversion lib filename data d :
  files d !! filename = Some data ->
  files (snd (get_converted_filename lib filename d))
  = match files d !! target_of lib data, converted lib filename data with
    | None, returns html => <[target_of lib data := html]> (files d)
    | _, _ => files d
    end.
Proof.
  intros Hfile. rewrite convert_outcome, Hfile.
  destruct (files d !! target_of lib data) as [text|]; [reflexivity |].
  destruct (converted lib filename data) as [html | e]; reflexivity.
Qed.

(** X18. Two files whose bytes have different MD5 digests can be converted
    in either order: both orders leave the same files on the disk. *)
Theorem conversions_commute
    (lib : Library) (d : Disk) (one other data data' : string) :
  files d !! one = Some data ->
  files d !! other = Some data' ->
  MD5.hexdigest data <> MD5.hexdigest data' ->
  files (snd (get_converted_filename lib other
                (snd (get_converted_filename lib one d))))
  = files (snd (get_converted_filename lib one
                  (snd (get_converted_filename lib other d)))).
Proof.
  intros Hone Hother Hdigest.
  assert (Hne : target_of lib data <> target_of lib data').
  { intros Heq. apply Hdigest, (target_of_inj lib), Heq. }
  rewrite (files_after_conversion lib other data'
             (snd (get_converted_filename lib one d)))
    by exact (lookup_weaken _ _ _ _ Hother (convert_grows lib one d)).
  rewrite (files_after_conversion lib one data
             (snd (get_converted_filename lib other d)))
    by exact (lookup_weaken _ _ _ _ Hone (convert_grows lib other d)).
  rewrite (files_after_conversion lib one data d Hone).
  rewrite (files_after_conversion lib other data' d Hother).
  destruct (files d !! target_of lib data) as [text|] eqn:Ht;
    destruct (files d !! target_of lib data') as [text'|] eqn:Ht';
    destruct (converted lib one data) as [html | e];
    destruct (converted lib other data') as [html' | e'];
    rewrite ?lookup_insert_ne by congruence; rewrite ?Ht, ?Ht'; try reflexivity.
  apply insert_insert_ne. congruence.
Qed.

(** The report and the text file, in both orders. *)
Lemma conversions_commute_witness :
  files
    (snd (get_converted_filename Sample.lib "/docs/plain.docx"
            (snd (get_converted_filename Sample.lib "/docs/report.docx"
                    Sample.disk))))
  = files
      (snd (get_converted_filename Sample.lib "/docs/report.docx"
              (snd (get_converted_filename Sample.lib "/docs/plain.docx"
                      Sample.disk)))).
Proof.
  apply (conversions_commute Sample.lib _ "/docs/report.docx" "/docs/plain.docx"
           Sample.hello_docx "plain text"); [reflexivity | reflexivity |].
  vm_compute. discriminate.
Defined.

End WordFiles.

(** ** The wildcard of the image file dialog *)

Module FileDialogSpec.

Import FileDialog.

Lemma string_app_assoc (a b c : string) : (a +:+ b) +:+ c = a +:+ (b +:+ c).
Proof.
  induction a as [|x a IH]; [reflexivity |].
  change (String x ((a +:+ b) +:+ c) = String x (a +:+ b +:+ c)).
  rewrite IH. reflexivity.
Qed.

Lemma rstrip_cons c a s :
  rstrip c s <> "" -> rstrip c (String a s) = String a (rstrip c s).
Proof. intros H. simpl. destruct (rstrip c s); [congruence | reflexivity]. Qed.

(** Stripping reaches no further than the part that is not all stripped. *)
Lemma rstrip_app c x y :
  rstrip c y <> "" -> rstrip c (x +:+ y) = x +:+ rstrip c y.
Proof.
  intros H. induction x as [|a x IH]; [reflexivity |].
  change (String a x +:+ y) with (String a (x +:+ y)).
  change (String a x +:+ rstrip c y) with (String a (x +:+ rstrip c y)).
  rewrite rstrip_cons; rewrite IH; [reflexivity |].
  destruct x; [exact H | discriminate].
Qed.

Lemma rstrip_entry ext' last name :
  last <> "|"%char ->
  rstrip "|" (entry (ext' +:+ String last "") name)
  = (name +:+ " (" +:+ ext' +:+ String last "" +:+ ")") +:+ "|"
    +:+ ext' +:+ String last "".
Proof.
  intros Hlast. unfold entry.
  assert (Htail : rstrip "|" (String last "|") = String last "").
  { simpl. rewrite decide_False by exact Hlast. reflexivity. }
  replace (name +:+ " (" +:+ (ext' +:+ String last "") +:+ ")|"
           +:+ (ext' +:+ String last "") +:+ "|")
    with ((name +:+ " (" +:+ (ext' +:+ String last "") +:+ ")|" +:+ ext')
          +:+ String last "|").
  - rewrite rstrip_app by (rewrite Htail; discriminate). rewrite Htail.
    rewrite ?string_app_assoc. simpl. rewrite ?string_app_assoc. reflexivity.
  - rewrite ?string_app_assoc. simpl. rewrite ?string_app_assoc. reflexivity.
Qed.

Lemma concat_cons sep x l :
  l <> [] -> String.concat sep (x :: l) = x +:+ sep +:+ String.concat sep l.
Proof. destruct l; [congruence | reflexivity]. Qed.

Lemma snoc_not_nil {A} (l : list A) (x : A) : l ++ [x] <> [].
Proof. destruct l; discriminate. Qed.

Lemma snoc2_not_nil {A} (l : list A) (x y : A) : l ++ [x; y] <> [].
Proof. destruct l; discriminate. Qed.

Lemma strip_last_snoc init last :
  strip_last (init ++ [last]) = Some (init ++ [rstrip "|" last]).
Proof.
  induction init as [|x init IH]; [reflexivity |].
  cbn [app strip_last]. rewrite IH.
  destruct init; reflexivity.
Qed.

Lemma fields_snoc init ext name :
  fields (init ++ [(ext, name)])
  = fields init ++ [name +:+ " (" +:+ ext +:+ ")"; ext].
Proof. unfold fields. rewrite bind_app. reflexivity. Qed.

(** Joining the entries with nothing is joining their fields with bars. *)
Lemma concat_entries init description pattern :
  String.concat ""
    (((fun ext_name => entry (fst ext_name) (snd ext_name)) <$> init)
     ++ [description +:+ "|" +:+ pattern])
  = String.concat "|" (fields init ++ [description; pattern]).
Proof.
  induction init as [|[ext name] init IH]; [reflexivity |].
  change (fields ((ext, name) :: init))
    with ([name +:+ " (" +:+ ext +:+ ")"; ext] ++ fields init).
  rewrite fmap_cons. cbn [app fst snd].
  rewrite (concat_cons "") by apply snoc_not_nil.
  rewrite (concat_cons "|") by discriminate.
  rewrite (concat_cons "|") by apply snoc2_not_nil.
  rewrite IH. unfold entry.
  rewrite ?string_app_assoc. simpl. rewrite ?string_app_assoc. reflexivity.
Qed.

(** X19. The wildcard that [onScanImageFile] builds from a list of
    extensions and names is the heading, the extensions joined by
    semicolons, and then a description and a pattern for each extension,
    all joined by bars with no bar at the end, when the last extension
    ends with a character other than a bar. That holds of the menu's own
    list whatever the translations of the names are. From an empty list the
    construction fails with an [IndexError]. *)
Theorem wildcard_is_joined_by_bars
    (heading : string) (init : list (string * string))
    (ext' name : string) (last : ascii) (tr : string -> string) :
  last <> "|"%char ->
  let all := init ++ [(ext' +:+ String last "", name)] in
  wildcard_of heading all
  = Some (String.concat "|"
            (heading :: String.concat ";" (fst <$> all) :: fields all))
  /\ image_wildcard tr
     = Some (String.concat "|"
               (tr "All supported image formats"
                  :: "*.png;*.jpg;*.bmp;*.tif" :: fields (all_exts tr)))
  /\ wildcard_of heading [] = None.
Proof.
  intros Hlast all.
  assert (Hgen : forall heading' init' ext'' name' last',
            last' <> "|"%char ->
            wildcard_of heading' (init' ++ [(ext'' +:+ String last' "", name')])
            = Some (String.concat "|"
                      (heading'
                         :: String.concat ";"
                              (fst <$> init' ++ [(ext'' +:+ String last' "", name')])
                         :: fields (init' ++ [(ext'' +:+ String last' "", name')])))).
  { clear. intros heading init ext' name last Hlast.
    unfold wildcard_of. rewrite !fmap_app.
    change ((fun ext_name => entry (fst ext_name) (snd ext_name))
              <$> [(ext' +:+ String last "", name)])
      with [entry (ext' +:+ String last "") name].
    rewrite strip_last_snoc. cbn [mbind option_bind]. f_equal.
    rewrite (rstrip_entry ext' last name Hlast), fields_snoc.
    set (allfiles := String.concat ";" _).
    rewrite (concat_cons "") by apply snoc_not_nil.
    rewrite concat_entries.
    rewrite (concat_cons "|") by discriminate.
    rewrite (concat_cons "|") by apply snoc2_not_nil.
    rewrite ?string_app_assoc. simpl. rewrite ?string_app_assoc. reflexivity. }
  split; [apply Hgen, Hlast | split; [| reflexivity]].
  apply (Hgen (tr "All supported image formats")
           [("*.png", tr "Portable Network Graphics");
            ("*.jpg", tr "JPEG images");
            ("*.bmp", tr "Bitmap images")]
           "*.ti" (tr "Tiff graphics") "f"%char).
  discriminate.
Qed.

Lemma wildcard_is_joined_by_bars_witness :
  image_wildcard (fun message => message)
  = Some ("All supported image formats|*.png;*.jpg;*.bmp;*.tif"
          +:+ "|Portable Network Graphics (*.png)|*.png"
          +:+ "|JPEG images (*.jpg)|*.jpg"
          +:+ "|Bitmap images (*.bmp)|*.bmp"
          +:+ "|Tiff graphics (*.tif)|*.tif").
Proof.
  destruct (wildcard_is_joined_by_bars "" [] "*.ti" "" "f"%char
              (fun message => message)) as (_ & Himage & _).
  - discriminate.
  - exact Himage.
Defined.

End FileDialogSpec.

(** ** The items of the menu *)

Module MenuSpec.

Import Menu.

Lemma Enable_ids id enable items :
  item_id <$> Enable id enable items = item_id <$> items.
Proof.
  unfold Enable. rewrite <- list_fmap_compose. apply list_fmap_ext.
  intros i item _. simpl. case_decide; reflexivity.
Qed.

Lemma Enable_labels id enable items :
  label <$> Enable id enable items = label <$> items.
Proof.
  unfold Enable. rewrite <- list_fmap_compose. apply list_fmap_ext.
  intros i item _. simpl. case_decide; reflexivity.
Qed.

Lemma is_enabled_Enable id id' enable items :
  is_enabled id' (Enable id enable items)
  = if decide (id' = id)
    then (fun _ => enable) <$> is_enabled id' items
    else is_enabled id' items.
Proof.
  unfold is_enabled, Enable.
  induction items as [|item items IH]; [case_decide; reflexivity |].
  rewrite fmap_cons. cbn [List.find].
  destruct (decide (item_id item = id)) as [Hid | Hid]; cbn [item_id];
    destruct (bool_decide (item_id item = id')) eqn:Hb;
    try (rewrite IH; reflexivity);
    apply bool_decide_eq_true in Hb; subst id'.
  - rewrite decide_True by exact Hid. reflexivity.
  - rewrite decide_False by exact Hid. reflexivity.
Qed.

(** X20. [_on_reader_loaded] sets the enabled state of the four items of
    [OCRMenuIds] to what the document answers, and of no other item: every
    other item keeps its state, and the identifiers, labels and order of the
    items are unchanged. On the menu that [__init__] builds, the item for
    scanning an image file, whose identifier is not one of the four, stays
    enabled whether or not the document can render pages. *)
Theorem reader_loaded_enables_the_enum
    (can_render : bool) (items : list Item) (id : Z)
    (tr : string -> string) (image2textId : Z) :
  (forall member, image2textId <> value member) ->
  (item_id <$> _on_reader_loaded can_render items = item_id <$> items)
  /\ (label <$> _on_reader_loaded can_render items = label <$> items)
  /\ ((forall member, id <> value member) ->
      is_enabled id (_on_reader_loaded can_render items) = is_enabled id items)
  /\ (forall member,
        is_enabled (value member) (_on_reader_loaded can_render items)
        = (fun _ => can_render) <$> is_enabled (value member) items)
  /\ is_enabled image2textId
       (_on_reader_loaded can_render (init_items tr image2textId))
     = Some true
  /\ (forall member,
        is_enabled (value member)
          (_on_reader_loaded can_render (init_items tr image2textId))
        = Some can_render).
Proof.
  intros Himage.
  assert (Hother : forall items' id',
            (forall member, id' <> value member) ->
            is_enabled id' (_on_reader_loaded can_render items')
            = is_enabled id' items').
  { intros items' id' Hid. unfold _on_reader_loaded, members. cbn [foldl].
    rewrite !is_enabled_Enable.
    rewrite !decide_False by apply Hid. reflexivity. }
  assert (Hmember : forall items' member,
            is_enabled (value member) (_on_reader_loaded can_render items')
            = (fun _ => can_render) <$> is_enabled (value member) items').
  { intros items' member. unfold _on_reader_loaded, members. cbn [foldl].
    rewrite !is_enabled_Enable.
    destruct member; simpl; destruct (is_enabled _ items'); reflexivity. }
  repeat split.
  - unfold _on_reader_loaded, members. cbn [foldl]. rewrite !Enable_ids.
    reflexivity.
  - unfold _on_reader_loaded, members. cbn [foldl]. rewrite !Enable_labels.
    reflexivity.
  - apply Hother.
  - apply Hmember.
  - rewrite Hother by exact Himage.
    unfold is_enabled, init_items, Append. simpl.
    rewrite !bool_decide_false
      by (intros Heq; first
            [ exact (Himage scanCurrentPage (eq_sym Heq))
            | exact (Himage autoScanPages (eq_sym Heq))
            | exact (Himage changeOCROptions (eq_sym Heq))
            | exact (Himage scanToTextFile (eq_sym Heq)) ]).
    rewrite bool_decide_true by reflexivity. reflexivity.
  - intros member. rewrite Hmember. destruct member; reflexivity.
Qed.

Lemma reader_loaded_enables_the_enum_witness :
  is_enabled (-31000)
    (_on_reader_loaded false (init_items (fun message => message) (-31000)))
  = Some true.
Proof.
  destruct (reader_loaded_enables_the_enum false [] 0
              (fun message => message) (-31000))
    as (_ & _ & _ & _ & Himage & _).
  - intros []; discriminate.
  - exact Himage.
Defined.

End MenuSpec.
